(** * gpxsplit: tracks cut into routes of bounded length

    A shallow embedding of [gpxsplit.py].  The script is a top-level
    program: its module-level variables ([routes_new], [route_idx],
    [point_idx]) become the fields of an explicit state, its [for] loops
    become folds over that state, and the Python exceptions its library
    calls can raise become the error side of a small error monad.

    Points are Python objects that the script mutates in place
    ([point.name = ...]) while they are shared between the segment they
    were parsed into and the route they are copied to.  They therefore
    live in a store indexed by object identity, and segments and routes
    hold references. *)

From Stdlib Require Import ZArith Ascii String List Decimal DecimalString DecimalNat DecimalZ.
From Stdlib Require Import Floats.
From stdpp Require Import base numbers option list strings gmap.

Local Open Scope string_scope.
Local Open Scope list_scope.
Local Open Scope Z_scope.

(** ** Python exceptions and the error monad *)

Inductive exn : Type :=
| ValueError (msg : string)     (* [range] with step 0, [math.log10] off its domain, [int] *)
| FileNotFoundError (path : string)
| OSError (msg : string)        (* any other failure of a call to the operating system *)
| SystemExit (code : Z).        (* how [argparse] reports a bad argument *)

Inductive result (A : Type) : Type :=
| Ok (a : A)
| Raise (e : exn).
Arguments Ok {A} a.
Arguments Raise {A} e.

#[global] Instance result_ret : MRet result := λ A a, Ok a.
#[global] Instance result_bind : MBind result := λ A B k m,
  match m with
  | Ok a => k a
  | Raise e => Raise e
  end.

(** The operating system as a run meets it.  Whether a directory can be
    made or a file opened and written depends on what is on the disk, on
    permissions and on much else that the script does not see: the model
    takes the outcome of each such call from the environment.
    [makedirs_raises p] is what [os.makedirs(p, exist_ok=True)] raises for a
    path [p] that is not empty, if anything; [open_raises n path] is what the
    [n]-th [open(path, "w")] of the run, or the write into the file, raises,
    if anything. *)
Record OS : Type :=
  { makedirs_raises : string → option exn;
    open_raises : nat → string → option exn }.

(** A [for] loop whose body may raise: the first exception ends the loop. *)
Fixpoint for_each {A S} (body : S → A → result S) (l : list A) (s : S) : result S :=
  match l with
  | [] => mret s
  | a :: l' => s' ← body s a; for_each body l' s'
  end.

(** ** Python built-ins used by the script *)

Module Py.

(** [len(range(start, stop, step))] for a non-zero step. *)
Definition range_length (start stop step : Z) : Z :=
  if 0 <? step then
    if start <? stop then (stop - start - 1) / step + 1 else 0
  else
    if stop <? start then (start - stop - 1) / (- step) + 1 else 0.

(** [range(start, stop, step)]; a zero step raises [ValueError]. *)
Definition range (start stop step : Z) : result (list Z) :=
  if step =? 0 then Raise (ValueError "range() arg 3 must not be zero")
  else Ok (map (λ i : nat, start + Z.of_nat i * step)
                (seq 0 (Z.to_nat (range_length start stop step)))).

(** A slice bound is clamped to [0, len]; a negative bound counts from the end. *)
Definition slice_index (len i : Z) : Z :=
  if i <? 0 then Z.max (i + len) 0 else Z.min i len.

(** [l[lo:hi]]. *)
Definition slice {A} (l : list A) (lo hi : Z) : list A :=
  let len := Z.of_nat (length l) in
  let lo' := slice_index len lo in
  let hi' := slice_index len hi in
  take (Z.to_nat (hi' - lo')) (drop (Z.to_nat lo') l).

(** How many times [pow] is to be multiplied by 10 to reach [n]. *)
Fixpoint ceil_log10_from (fuel : nat) (pow : Z) (n : Z) : nat :=
  match fuel with
  | O => O
  | S fuel' => if n <=? pow then O else S (ceil_log10_from fuel' (10 * pow) n)
  end.

(** Up to this argument [math.ceil(math.log10(n))] is modelled by its exact
    value. *)
Definition log10_exact_up_to : Z := 10 ^ 12.

(** [math.ceil(math.log10(n))].  [math.log10] raises off [n > 0].  Python
    goes through a double.  For [0 < n <= 10^12] that gives the exact value,
    the least [w] with [n <= 10^w]: such an [n] is a double itself; at a
    power of ten the C library's [log10] returns the integer; and anywhere
    else [log10 n] is more than [4e-13], hundreds of units in the last
    place, away from every integer.  Further up the double rounds onto
    integers (at [10^15 + 1] Python computes 15, the exact value being 16),
    and what the expression gives there is left to the platform:
    [beyond n]. *)
Definition ceil_log10 (beyond : Z → nat) (n : Z) : result nat :=
  if n <=? 0 then Raise (ValueError "math domain error")
  else if n <=? log10_exact_up_to then Ok (ceil_log10_from (Z.to_nat n) 1 n)
  else Ok (beyond n).

(** [enumerate(l, start)] *)
Fixpoint enumerate_from {A} (start : nat) (l : list A) : list (nat * A) :=
  match l with
  | [] => []
  | a :: l' => (start, a) :: enumerate_from (S start) l'
  end.

Definition enumerate {A} (l : list A) : list (nat * A) := enumerate_from 0 l.

(** [int(s)] on an optionally signed run of ASCII decimal digits; any other
    string raises [ValueError] here (Python also tolerates surrounding blanks
    and single underscores between digits, which this model leaves out). *)
Definition int (s : string) : result Z :=
  let parsed :=
    match s with
    | String "+" s' => Z.of_uint <$> NilZero.uint_of_string s'
    | String "-" s' => Z.opp <$> (Z.of_uint <$> NilZero.uint_of_string s')
    | _ => Z.of_uint <$> NilZero.uint_of_string s
    end in
  match parsed with
  | Some z => Ok z
  | None => Raise (ValueError "invalid literal for int() with base 10")
  end.

(** [str(z)] for an [int]. *)
Definition str (z : Z) : string := NilZero.string_of_int (Z.to_int z).

(** [str(n)] for a counter, an [int] that is never negative. *)
Definition str_nat (n : nat) : string := str (Z.of_nat n).

(** ["0" * k] *)
Fixpoint zeros (k : nat) : string :=
  match k with
  | O => EmptyString
  | S k' => String "0" (zeros k')
  end.

(** [f"{n:0{width}}"] for [n >= 0]: the decimal digits, with zeros on the
    left up to [width] characters. *)
Definition format_zero_padded (width : nat) (n : nat) : string :=
  let digits := str_nat n in
  (zeros (width - String.length digits) ++ digits)%string.

(** [s.rfind(c)]: the index of the last [c] in [s], or [-1]. *)
Fixpoint rfind_from (c : ascii) (s : string) (i last : Z) : Z :=
  match s with
  | EmptyString => last
  | String a s' => rfind_from c s' (i + 1) (if Ascii.eqb a c then i else last)
  end.

Definition rfind (s : string) (c : ascii) : Z := rfind_from c s 0 (-1).

(** [s[:i]] and [s[i:]] for [0 <= i]. *)
Definition str_upto (s : string) (i : Z) : string := substring 0 (Z.to_nat i) s.
Definition str_from (s : string) (i : Z) : string :=
  substring (Z.to_nat i) (String.length s - Z.to_nat i) s.

(** [s.rstrip(c)]. *)
Fixpoint rstrip (c : ascii) (s : string) : string :=
  match s with
  | EmptyString => EmptyString
  | String a s' =>
      let r := rstrip c s' in
      if Ascii.eqb a c && String.eqb r "" then "" else String a r
  end.

(** [s == c * len(s)]. *)
Fixpoint all_chars (c : ascii) (s : string) : bool :=
  match s with
  | EmptyString => true
  | String a s' => Ascii.eqb a c && all_chars c s'
  end.

End Py.

(** ** [os.path] on POSIX *)

Module os_path.

Definition basename (p : string) : string :=
  let i := Py.rfind p "/" + 1 in
  Py.str_from p i.

Definition dirname (p : string) : string :=
  let i := Py.rfind p "/" + 1 in
  let head := Py.str_upto p i in
  if negb (String.eqb head "") && negb (Py.all_chars "/" head)
  then Py.rstrip "/" head
  else head.

(** [splitext(p)]: the extension starts at the last dot of the last path
    component, unless that component has only dots before it. *)
Definition splitext (p : string) : string * string :=
  let sepIndex := Py.rfind p "/" in
  let dotIndex := Py.rfind p "." in
  if (sepIndex <? dotIndex)
     && negb (Py.all_chars "."
                (substring (Z.to_nat (sepIndex + 1)) (Z.to_nat (dotIndex - (sepIndex + 1))) p))
  then (Py.str_upto p dotIndex, Py.str_from p dotIndex)
  else (p, "").

(** [join(a, b)] for two arguments. *)
Definition join (a b : string) : string :=
  match b with
  | String "/" _ => b
  | _ =>
      if String.eqb a "" || String.eqb (Py.str_from a (Z.of_nat (String.length a) - 1)) "/"
      then (a ++ b)%string
      else (a ++ "/" ++ b)%string
  end.

(** [os.makedirs(p, exist_ok=True)]: the empty path names no directory and
    raises on every system; for any other path the outcome is the
    environment's, and on success [p] and its missing ancestors exist
    afterwards.  The directory ensured is returned. *)
Definition makedirs (os : OS) (p : string) : result string :=
  if String.eqb p "" then Raise (FileNotFoundError p)
  else match makedirs_raises os p with
       | Some e => Raise e
       | None => Ok p
       end.

End os_path.

(** ** The data model of the track library

    [loc] is the identity of a point object.  The classes are those of
    [gpxpy.gpx]; the fields are the ones the script reads or writes. *)

Abbreviation loc := nat (only parsing).

Module GPXTrackPoint.
Record t : Type := mk
  { latitude : float; longitude : float; elevation : option float;
    name : option string }.
(** [point.name = n] *)
Definition set_name (n : option string) (p : t) : t :=
  {| latitude := latitude p; longitude := longitude p;
     elevation := elevation p; name := n |}.
End GPXTrackPoint.

Module GPXTrackSegment.
Record t : Type := mk { points : list loc }.
End GPXTrackSegment.

Module GPXTrack.
Record t : Type := mk { segments : list GPXTrackSegment.t }.
End GPXTrack.

Module GPXRoute.
Record t : Type := mk { name : string; points : list loc }.
End GPXRoute.

Module GPX.
Record t : Type := mk { tracks : list GPXTrack.t; routes : list GPXRoute.t }.
(** [gpxpy.gpx.GPX()] *)
Definition new : t := {| tracks := []; routes := [] |}.
End GPX.

(** An input of the command line: the opened file ([gpxfile.name]) and the
    document [gpxpy.parse] reads from it. *)
Record InputFile : Type :=
  { file_name : string; parsed : GPX.t }.

(** The namespace [parser.parse_args()] returns. *)
Record Args : Type :=
  { input : list InputFile;
    output : option string;
    simplify : bool;
    output_dir : string;
    splitfiles : bool;
    max_distance : float;
    max_route_length : Z }.

(** The module-level variables of the script, and the store of points. *)
Record state : Type :=
  { heap : gmap loc GPXTrackPoint.t;
    routes_new : list GPXRoute.t;
    route_idx : nat;
    point_idx : nat }.

Definition set_heap (h : gmap loc GPXTrackPoint.t) (s : state) : state :=
  {| heap := h; routes_new := routes_new s; route_idx := route_idx s; point_idx := point_idx s |}.
Definition set_routes_new (r : list GPXRoute.t) (s : state) : state :=
  {| heap := heap s; routes_new := r; route_idx := route_idx s; point_idx := point_idx s |}.
Definition set_route_idx (n : nat) (s : state) : state :=
  {| heap := heap s; routes_new := routes_new s; route_idx := n; point_idx := point_idx s |}.
Definition set_point_idx (n : nat) (s : state) : state :=
  {| heap := heap s; routes_new := routes_new s; route_idx := route_idx s; point_idx := n |}.

Definition DEFAULT_OUTPUTNAME : string := "output.gpx".

(** ** The argument layer (lines 63-71) *)

(** [type=int]: [argparse] converts the value with [int] and turns its
    [ValueError] into a usage error, exit status 2. *)
Definition argparse_int (s : string) : result Z :=
  match Py.int s with
  | Ok z => Ok z
  | Raise _ => Raise (SystemExit 2)
  end.

(** [--max_route_length], [type=int], [default=250]. *)
Definition max_route_length_arg (given : option string) : result Z :=
  match given with
  | None => Ok 250
  | Some s => argparse_int s
  end.

(** ** The script *)

Section Script.

(** [gpxpy.geo.simplify_polyline]: the points of a segment that are kept for
    a given distance; it reads coordinates and is not interpreted. *)
Variable simplify_polyline : gmap loc GPXTrackPoint.t → list loc → float → list loc.

(** What [math.ceil(math.log10(n))] evaluates to for [n] above [10^12]. *)
Variable log10_beyond : Z → nat.

(** [gpx.simplify(max_distance)]: every segment of every track in place. *)
Definition gpx_simplify (h : gmap loc GPXTrackPoint.t) (max_distance : float) (gpx : GPX.t) : GPX.t :=
  {| GPX.tracks :=
       map (λ track,
              {| GPXTrack.segments :=
                   map (λ segment,
                          {| GPXTrackSegment.points :=
                               simplify_polyline h (GPXTrackSegment.points segment) max_distance |})
                       (GPXTrack.segments track) |})
           (GPX.tracks gpx);
     GPX.routes := GPX.routes gpx |}.

(** Lines 76-89: the base name of the output. *)
Definition resolve_output (args : Args) : string :=
  match output args with
  | None =>
      match input args with
      | [gpxfile] => (os_path.splitext (os_path.basename (file_name gpxfile))).1
      | _ => (os_path.splitext DEFAULT_OUTPUTNAME).1
      end
  | Some o => (os_path.splitext o).1
  end.

(** Lines 115-118. *)
Definition subsegments (points : list loc) (max_route_length : Z) : result (list (list loc)) :=
  starts ← Py.range 0 (Z.of_nat (length points)) max_route_length;
  mret (map (λ start, Py.slice points start (start + max_route_length)) starts).

(** Lines 128-130, the body of [for point in sublist].  A reference outside
    the store denotes no object; the step leaves the store alone there. *)
Definition label_point (max_route_length : Z) (s : state) (point : loc) : result state :=
  let s := set_point_idx (S (point_idx s)) s in
  match heap s !! point with
  | Some pt =>
      match GPXTrackPoint.name pt with
      | None =>
          width ← Py.ceil_log10 log10_beyond max_route_length;
          mret (set_heap
                  (<[point := GPXTrackPoint.set_name
                                (Some (Py.format_zero_padded width (point_idx s))) pt]> (heap s))
                  s)
      | Some _ => mret s
      end
  | None => mret s
  end.

(** Line 124. *)
Definition routename (route_idx : nat) (gpxfile_name : string) : string :=
  (Py.format_zero_padded 3 route_idx ++ "_"
     ++ (os_path.splitext (os_path.basename gpxfile_name)).1)%string.

(** Lines 122-135, the body of [for sublist in subsegments]. *)
Definition make_route (max_route_length : Z) (gpxfile_name : string)
    (s : state) (sublist : list loc) : result state :=
  let name := routename (route_idx s) gpxfile_name in
  s ← for_each (label_point max_route_length) sublist s;
  let route_new := {| GPXRoute.name := name; GPXRoute.points := sublist |} in
  mret (set_route_idx (S (route_idx s)) (set_routes_new (routes_new s ++ [route_new]) s)).

(** Lines 112-135, the body of [for segment in track.segments]. *)
Definition process_segment (max_route_length : Z) (gpxfile_name : string)
    (s : state) (segment : GPXTrackSegment.t) : result state :=
  subs ← subsegments (GPXTrackSegment.points segment) max_route_length;
  for_each (make_route max_route_length gpxfile_name) subs s.

(** Lines 110-135, the body of [for track in gpx.tracks]. *)
Definition process_track (max_route_length : Z) (gpxfile_name : string)
    (s : state) (track : GPXTrack.t) : result state :=
  for_each (process_segment max_route_length gpxfile_name)
    (GPXTrack.segments track) (set_point_idx 0 s).

(** Lines 101-107: the document the chunker works on. *)
Definition load (args : Args) (h : gmap loc GPXTrackPoint.t) (gpxfile : InputFile) : GPX.t :=
  if simplify args then gpx_simplify h (max_distance args) (parsed gpxfile)
  else parsed gpxfile.

(** Lines 99-139, the body of [for gpxfile in args.input]. *)
Definition process_file (args : Args) (s : state) (gpxfile : InputFile) : result state :=
  let gpx := load args (heap s) gpxfile in
  for_each (process_track (max_route_length args) (file_name gpxfile))
    (GPX.tracks gpx) (set_route_idx 0 s).

(** Lines 97-139. *)
Definition chunk_all (args : Args) (h : gmap loc GPXTrackPoint.t) : result state :=
  for_each (process_file args) (input args)
    {| heap := h; routes_new := []; route_idx := 0; point_idx := 0 |}.

Definition split_filename (route_new_idx : nat) (output : string) (max_route_length : Z) : string :=
  (Py.str_nat route_new_idx ++ "_" ++ output ++ "_route_split"
     ++ Py.str max_route_length ++ ".gpx")%string.

Definition combined_filename (output : string) (max_route_length : Z) : string :=
  (output ++ "_route_split" ++ Py.str max_route_length ++ ".gpx")%string.

(** The operating system of the run. *)
Variable os : OS.

(** [with open(path, "w") as fp: fp.write(doc.to_xml())], the [n]-th of the
    run: it raises what the environment raises, and otherwise the file is
    there, after the files [written] before it. *)
Definition open_and_write (n : nat) (path : string) (doc : GPX.t)
    (written : list (string * GPX.t)) : result (list (string * GPX.t)) :=
  match open_raises os n path with
  | Some e => Raise e
  | None => Ok (written ++ [(path, doc)])
  end.

(** Lines 141-160: the files written, in order, each with its path and the
    document serialised into it.  An exception ends the run at once: the
    files after it are not written. *)
Definition write_files (args : Args) (output : string) (routes_new : list GPXRoute.t)
    : result (list (string * GPX.t)) :=
  if splitfiles args then
    for_each (λ written '(route_new_idx, route_new),
                let gpx_new := {| GPX.tracks := GPX.tracks GPX.new;
                                  GPX.routes := GPX.routes GPX.new ++ [route_new] |} in
                let filename :=
                  split_filename route_new_idx output (max_route_length args) in
                open_and_write route_new_idx
                  (os_path.join (output_dir args) filename) gpx_new written)
             (Py.enumerate routes_new) []
  else
    let gpx_new := {| GPX.tracks := GPX.tracks GPX.new;
                      GPX.routes := GPX.routes GPX.new ++ routes_new |} in
    let filename := combined_filename output (max_route_length args) in
    open_and_write 0 (os_path.join (output_dir args) filename) gpx_new [].

(** What a run leaves behind. *)
Record Outcome : Type :=
  { ensured_dir : string;               (* the directory line 73 made sure of *)
    final : state;
    written : list (string * GPX.t) }.

(** The whole script, from line 73 on. *)
Definition main (args : Args) (h : gmap loc GPXTrackPoint.t) : result Outcome :=
  dir ← os_path.makedirs os (os_path.dirname (output_dir args));
  let output := resolve_output args in
  s ← chunk_all args h;
  written ← write_files args output (routes_new s);
  mret {| ensured_dir := dir; final := s; written := written |}.

End Script.

(** ** Closed forms used in the proofs

    None of these is code of the script: they describe, as plain functions,
    what its loops compute, and the lemmas below relate them to the loops. *)

(** [ceil(a / b)] for [b > 0]. *)
Definition ceil_div (a b : Z) : Z := (a + b - 1) / b.

(** Window [k] of width [m]: indices [k*m] up to [(k+1)*m], cut at the end. *)
Definition window (m : nat) (points : list loc) (k : nat) : list loc :=
  take m (drop (k * m) points).

Definition windows (max_route_length : Z) (points : list loc) : list (list loc) :=
  map (window (Z.to_nat max_route_length) points)
      (seq 0 (Z.to_nat (ceil_div (Z.of_nat (length points)) max_route_length))).

(** The width of the labels, where [math.log10] is defined. *)
Definition label_width (beyond : Z → nat) (max_route_length : Z) : nat :=
  if max_route_length <=? Py.log10_exact_up_to
  then Py.ceil_log10_from (Z.to_nat max_route_length) 1 max_route_length
  else beyond max_route_length.

(** One pass of lines 128-130 over [visited], the counter standing at [idx]. *)
Definition backfill_one (width idx : nat) (point : loc)
    (h : gmap loc GPXTrackPoint.t) : gmap loc GPXTrackPoint.t :=
  match h !! point with
  | Some pt =>
      match GPXTrackPoint.name pt with
      | None => <[point := GPXTrackPoint.set_name
                             (Some (Py.format_zero_padded width idx)) pt]> h
      | Some _ => h
      end
  | None => h
  end.

Fixpoint backfill (width idx : nat) (visited : list loc)
    (h : gmap loc GPXTrackPoint.t) : gmap loc GPXTrackPoint.t :=
  match visited with
  | [] => h
  | point :: visited' => backfill width (S idx) visited' (backfill_one width (S idx) point h)
  end.

(** The routes built from consecutive groups, numbered from [first]. *)
Definition routes_of (gpxfile_name : string) (first : nat) (groups : list (list loc))
    : list GPXRoute.t :=
  imap (λ k sublist, {| GPXRoute.name := routename (first + k) gpxfile_name;
                        GPXRoute.points := sublist |}) groups.

Definition track_points (track : GPXTrack.t) : list loc :=
  concat (map GPXTrackSegment.points (GPXTrack.segments track)).

Definition gpx_points (gpx : GPX.t) : list loc :=
  concat (map track_points (GPX.tracks gpx)).

Definition track_groups (max_route_length : Z) (track : GPXTrack.t) : list (list loc) :=
  concat (map (λ segment, windows max_route_length (GPXTrackSegment.points segment))
              (GPXTrack.segments track)).

Definition gpx_groups (max_route_length : Z) (gpx : GPX.t) : list (list loc) :=
  concat (map (track_groups max_route_length) (GPX.tracks gpx)).

(** The store after the tracks of a document, each numbered from 1 again. *)
Definition backfill_tracks (width : nat) (tracks : list GPXTrack.t)
    (h : gmap loc GPXTrackPoint.t) : gmap loc GPXTrackPoint.t :=
  foldl (λ h track, backfill width 0 (track_points track) h) h tracks.

(** The files the writer sets out to write, in order: lines 141-160 when
    every call to the operating system succeeds. *)
Definition files_to_write (args : Args) (output : string) (routes_new : list GPXRoute.t)
    : list (string * GPX.t) :=
  if splitfiles args then
    imap (λ route_new_idx route_new,
            (os_path.join (output_dir args)
               (split_filename route_new_idx output (max_route_length args)),
             {| GPX.tracks := GPX.tracks GPX.new;
                GPX.routes := GPX.routes GPX.new ++ [route_new] |}))
         routes_new
  else
    [(os_path.join (output_dir args) (combined_filename output (max_route_length args)),
      {| GPX.tracks := GPX.tracks GPX.new;
         GPX.routes := GPX.routes GPX.new ++ routes_new |})].

Definition gpx_segments (gpx : GPX.t) : list GPXTrackSegment.t :=
  concat (map GPXTrack.segments (GPX.tracks gpx)).

(** The base name of an input file, as line 124 takes it. *)
Definition file_base (gpxfile_name : string) : string :=
  (os_path.splitext (os_path.basename gpxfile_name)).1.

(** The characters of a string. *)
Definition chars (s : string) : list ascii := list_ascii_of_string s.

(** The part of a route name before its first underscore. *)
Fixpoint numeric_prefix (name : string) : string :=
  match name with
  | EmptyString => EmptyString
  | String a name' => if Ascii.eqb a "_" then EmptyString else String a (numeric_prefix name')
  end.

(** ** Sample data

    Seven points, the third already named; a document with two tracks; two
    files of the same base name in different directories. *)

Module Sample.

Definition point (lat lon : float) (name : option string) : GPXTrackPoint.t :=
  {| GPXTrackPoint.latitude := lat; GPXTrackPoint.longitude := lon;
     GPXTrackPoint.elevation := None; GPXTrackPoint.name := name |}.

Definition store : gmap loc GPXTrackPoint.t :=
  list_to_map
    [ (0%nat, point 50.5 4.25 None); (1%nat, point 50.5 4.5 None);
      (2%nat, point 50.75 4.5 (Some "summit")); (3%nat, point 51 4.5 None);
      (4%nat, point 51 4.75 None); (5%nat, point 51.25 4.75 None);
      (6%nat, point 51.5 5 None) ].

Definition segment (points : list loc) : GPXTrackSegment.t :=
  {| GPXTrackSegment.points := points |}.

Definition track (segments : list (list loc)) : GPXTrack.t :=
  {| GPXTrack.segments := map segment segments |}.

Definition document (tracks : list (list (list loc))) : GPX.t :=
  {| GPX.tracks := map track tracks; GPX.routes := [] |}.

(** One track of two segments, then a track with an empty segment. *)
Definition two_tracks : InputFile :=
  {| file_name := "rides/alps.gpx";
     parsed := document [ [[0; 1; 2]; [3]]; [[4; 5]; []; [6]] ]%nat |}.

Definition first_day : InputFile :=
  {| file_name := "day1/ride.gpx"; parsed := document [ [[0; 1; 2]] ]%nat |}.

Definition second_day : InputFile :=
  {| file_name := "day2/ride.gpx"; parsed := document [ [[3; 4; 5]] ]%nat |}.

Definition args (input : list InputFile) (splitfiles : bool) (M : Z) : Args :=
  {| input := input; output := None; simplify := false; output_dir := "./";
     splitfiles := splitfiles; max_distance := 5; max_route_length := M |}.

Definition simplified (a : Args) : Args :=
  {| input := input a; output := output a; simplify := true;
     output_dir := output_dir a; splitfiles := splitfiles a;
     max_distance := max_distance a; max_route_length := max_route_length a |}.

Definition in_dir (dir : string) (a : Args) : Args :=
  {| input := input a; output := output a; simplify := simplify a;
     output_dir := dir; splitfiles := splitfiles a;
     max_distance := max_distance a; max_route_length := max_route_length a |}.

(** A stand-in for the simplifier: the two ends of a segment. *)
Definition ends_only (h : gmap loc GPXTrackPoint.t) (points : list loc) (d : float)
    : list loc :=
  match points with
  | p :: (_ :: _) as rest => [p; List.last rest p]
  | _ => points
  end.

Definition start : state :=
  {| heap := store; routes_new := []; route_idx := 0; point_idx := 0 |}.

(** A stand-in for the platform above [10^12], where no sample goes: the
    exact ceiling. *)
Definition log10_beyond (n : Z) : nat := Py.ceil_log10_from (Z.to_nat n) 1 n.

(** A system on which every call succeeds: the directories written to
    exist and can be written to. *)
Definition permissive : OS :=
  {| makedirs_raises := λ _, None; open_raises := λ _ _, None |}.

(** A system on which, when the files are written, [dirs] are the only
    directories there are: a file can be opened in them and nowhere else. *)
Definition only_dirs (dirs : list string) : OS :=
  {| makedirs_raises := λ _, None;
     open_raises := λ _ path,
       if bool_decide (os_path.dirname path ∈ dirs) then None
       else Some (FileNotFoundError path) |}.

End Sample.

(** * Properties *)

(** ** Arithmetic of the windows *)

Lemma ceil_div_bounds (a b : Z) :
  0 < b → b * (ceil_div a b - 1) < a ≤ b * ceil_div a b.
Proof.
  intros Hb. unfold ceil_div.
  pose proof (Z.div_mod (a + b - 1) b ltac:(lia)) as Hdm.
  pose proof (Z.mod_pos_bound (a + b - 1) b Hb) as Hm.
  lia.
Qed.

Lemma ceil_div_unique (a b n : Z) :
  0 < b → b * (n - 1) < a ≤ b * n → n = ceil_div a b.
Proof.
  intros Hb Hn. pose proof (ceil_div_bounds a b Hb). nia.
Qed.

Lemma range_length_ceil_div (L M : Z) :
  0 ≤ L → 1 ≤ M → Py.range_length 0 L M = ceil_div L M.
Proof.
  intros HL HM. unfold Py.range_length.
  destruct (Z.ltb_spec 0 M) as [_|]; [|lia].
  apply ceil_div_unique; [lia|].
  destruct (Z.ltb_spec 0 L) as [Hpos|Hz].
  - replace (L - 0 - 1) with (L - 1) by lia.
    pose proof (Z.div_mod (L - 1) M ltac:(lia)).
    pose proof (Z.mod_pos_bound (L - 1) M ltac:(lia)).
    lia.
  - lia.
Qed.

Lemma slice_window (points : list loc) (M : Z) (k : nat) :
  0 ≤ M →
  Py.slice points (0 + Z.of_nat k * M) (0 + Z.of_nat k * M + M)
  = window (Z.to_nat M) points k.
Proof.
  intros HM. unfold Py.slice, Py.slice_index, window.
  set (L := Z.of_nat (length points)).
  assert (Hk : Z.to_nat (Z.of_nat k * M) = (k * Z.to_nat M)%nat) by nia.
  destruct (Z.ltb_spec (0 + Z.of_nat k * M) 0) as [|_]; [nia|].
  destruct (Z.ltb_spec (0 + Z.of_nat k * M + M) 0) as [|_]; [nia|].
  destruct (Z.le_gt_cases (Z.of_nat k * M) L) as [Hin|Hout].
  - rewrite (Z.min_l (0 + _) L) by lia.
    replace (Z.to_nat (0 + Z.of_nat k * M)) with (k * Z.to_nat M)%nat by lia.
    destruct (Z.le_gt_cases (Z.of_nat k * M + M) L) as [Hfull|Hcut].
    + rewrite Z.min_l by lia. f_equal. lia.
    + rewrite Z.min_r by lia.
      rewrite !take_ge; [done| |]; rewrite length_drop; unfold L in *; lia.
  - rewrite !Z.min_r by lia.
    replace (Z.to_nat (L - L)) with 0%nat by lia.
    rewrite (drop_ge points (k * Z.to_nat M)) by (unfold L in *; lia).
    by rewrite take_0, take_nil.
Qed.

Lemma subsegments_windows (points : list loc) (M : Z) :
  1 ≤ M → subsegments points M = Ok (windows M points).
Proof.
  intros HM. unfold subsegments, Py.range, windows.
  destruct (Z.eqb_spec M 0) as [|_]; [lia|]. simpl.
  rewrite range_length_ceil_div by lia.
  f_equal. rewrite map_map. apply map_ext. intros k.
  apply slice_window. lia.
Qed.

Lemma subsegments_negative (points : list loc) (M : Z) :
  M < 0 → subsegments points M = Ok [].
Proof.
  intros HM. unfold subsegments, Py.range, Py.range_length.
  destruct (Z.eqb_spec M 0) as [|_]; [lia|].
  destruct (Z.ltb_spec 0 M) as [|_]; [lia|].
  destruct (Z.ltb_spec (Z.of_nat (length points)) 0) as [|_]; [lia|].
  reflexivity.
Qed.

Lemma subsegments_zero (points : list loc) :
  subsegments points 0 = Raise (ValueError "range() arg 3 must not be zero").
Proof. reflexivity. Qed.

Lemma concat_windows_take (m : nat) (points : list loc) (n : nat) :
  concat (map (window m points) (seq 0 n)) = take (n * m) points.
Proof.
  induction n as [|n IH].
  - by rewrite take_0.
  - rewrite seq_S, map_app, concat_app, IH. simpl.
    rewrite app_nil_r. unfold window.
    rewrite take_take_drop. f_equal. lia.
Qed.

Lemma concat_windows (points : list loc) (M : Z) :
  1 ≤ M → concat (windows M points) = points.
Proof.
  intros HM. unfold windows. rewrite concat_windows_take.
  apply take_ge.
  pose proof (ceil_div_bounds (Z.of_nat (length points)) M ltac:(lia)).
  nia.
Qed.

Lemma length_windows (points : list loc) (M : Z) :
  Z.of_nat (length (windows M points)) = Z.max 0 (ceil_div (Z.of_nat (length points)) M).
Proof. unfold windows. rewrite length_map, length_seq. lia. Qed.

Lemma lookup_windows (points : list loc) (M : Z) (i : nat) (g : list loc) :
  windows M points !! i = Some g → g = window (Z.to_nat M) points i.
Proof.
  unfold windows. rewrite list_lookup_fmap.
  destruct (seq _ _ !! i) as [k|] eqn:Hk; [|done].
  apply lookup_seq in Hk as [-> _]. simpl. by intros [= <-].
Qed.

Lemma length_window (m : nat) (points : list loc) (k : nat) :
  length (window m points k) = (m `min` (length points - k * m))%nat.
Proof. unfold window. by rewrite length_take, length_drop. Qed.

(** ** The error monad and the loops *)

Lemma for_each_app {A S} (body : S → A → result S) (l1 l2 : list A) (s : S) :
  for_each body (l1 ++ l2) s = (s' ← for_each body l1 s; for_each body l2 s').
Proof.
  revert s. induction l1 as [|a l1 IH]; intros s; simpl; [done|].
  destruct (body s a) as [s1|e]; simpl; [apply IH|done].
Qed.


(** ** C2: how many groups, and how long *)



Example subsegments_7_3 :
  subsegments [10; 11; 12; 13; 14; 15; 16]%nat 3
  = Ok [[10; 11; 12]; [13; 14; 15]; [16]]%nat.
Proof. reflexivity. Qed.

(** ** Decimal formatting *)

Lemma to_int_cases (z : Z) :
  ∃ d : uint, d ≠ Nil ∧ Z.of_uint d = Z.abs z ∧
              Z.to_int z = if z <? 0 then Neg d else Pos d.
Proof.
  pose proof (DecimalZ.of_to z) as Hz. destruct z as [|q|q]; simpl in *.
  - exists (D0 Nil). by repeat split.
  - exists (Pos.to_uint q). repeat split; [apply DecimalPos.Unsigned.to_uint_nonnil|done].
  - exists (Pos.to_uint q).
    repeat split; [apply DecimalPos.Unsigned.to_uint_nonnil|lia].
Qed.

Lemma int_unsigned (s : string) (d : uint) :
  NilZero.uint_of_string s = Some d → Py.int s = Ok (Z.of_uint d).
Proof.
  intros H. destruct s as [|a s]; [done|].
  pose proof H as H'. simpl in H'.
  destruct (NilEmpty.uint_of_string s) as [d'|]; [|done].
  apply uint_of_char_spec in H'.
  unfold Py.int.
  destruct H' as [[-> _]|[[-> _]|[[-> _]|[[-> _]|[[-> _]|[[-> _]|[[-> _]|[[-> _]|[[-> _]|[-> _]]]]]]]]]];
    cbv iota beta; rewrite H; reflexivity.
Qed.

Lemma int_str (z : Z) : Py.int (Py.str z) = Ok z.
Proof.
  destruct (to_int_cases z) as (d & Hd & Habs & Hz).
  unfold Py.str. rewrite Hz.
  destruct (Z.ltb_spec z 0) as [Hneg|Hpos]; simpl.
  - unfold Py.int. rewrite NilZero.usu by done. simpl. f_equal. lia.
  - rewrite (int_unsigned _ d) by (by apply NilZero.usu). f_equal. lia.
Qed.

Lemma uint_of_string_zeros (k : nat) (s : string) (d : uint) :
  NilZero.uint_of_string s = Some d →
  ∃ d', NilZero.uint_of_string (Py.zeros k ++ s)%string = Some d' ∧ Z.of_uint d' = Z.of_uint d.
Proof.
  intros H. induction k as [|k (d' & IH & Hd')]; simpl; [by exists d|].
  exists (D0 d'). split; [|done].
  destruct (Py.zeros k ++ s)%string as [|a t] eqn:E; [done|].
  change (uint_of_char "0" (NilZero.uint_of_string (String a t)) = Some (D0 d')).
  by rewrite IH.
Qed.

Lemma str_nat_unsigned (n : nat) :
  ∃ d, NilZero.uint_of_string (Py.str_nat n) = Some d ∧ Z.of_uint d = Z.of_nat n.
Proof.
  destruct (to_int_cases (Z.of_nat n)) as (d & Hd & Habs & Hz).
  destruct (Z.ltb_spec (Z.of_nat n) 0) as [|_]; [lia|].
  exists d. unfold Py.str_nat, Py.str. rewrite Hz. simpl.
  split; [by apply NilZero.usu|lia].
Qed.

(** Reading a zero-padded counter back gives the counter. *)
Lemma int_format_zero_padded (width n : nat) :
  Py.int (Py.format_zero_padded width n) = Ok (Z.of_nat n).
Proof.
  destruct (str_nat_unsigned n) as (d & Hd & Hn).
  destruct (uint_of_string_zeros (width - String.length (Py.str_nat n)) _ _ Hd)
    as (d' & Hd' & Hn').
  unfold Py.format_zero_padded. rewrite (int_unsigned _ _ Hd'). f_equal. lia.
Qed.

Lemma format_zero_padded_inj (width n n' : nat) :
  Py.format_zero_padded width n = Py.format_zero_padded width n' → n = n'.
Proof.
  intros H. pose proof (int_format_zero_padded width n) as Hn.
  rewrite H, int_format_zero_padded in Hn. injection Hn. lia.
Qed.

(** A string that reads as an unsigned number has no underscore. *)
Lemma numeric_prefix_unsigned (s t : string) (d : uint) :
  NilEmpty.uint_of_string s = Some d → numeric_prefix (s ++ String "_" t)%string = s.
Proof.
  revert d. induction s as [|a s IH]; intros d H; simpl.
  - reflexivity.
  - simpl in H. destruct (NilEmpty.uint_of_string s) as [d'|]; [|done].
    rewrite (IH d') by done.
    apply uint_of_char_spec in H.
    destruct H as [[-> _]|[[-> _]|[[-> _]|[[-> _]|[[-> _]|[[-> _]|[[-> _]|[[-> _]|[[-> _]|[-> _]]]]]]]]]];
      reflexivity.
Qed.

Lemma numeric_prefix_routename (k : nat) (gpxfile_name : string) :
  numeric_prefix (routename k gpxfile_name) = Py.format_zero_padded 3 k.
Proof.
  destruct (str_nat_unsigned k) as (d & Hd & _).
  destruct (uint_of_string_zeros (3 - String.length (Py.str_nat k)) _ _ Hd)
    as (d' & Hd' & _).
  unfold routename. apply (numeric_prefix_unsigned _ _ d').
  fold (Py.format_zero_padded 3 k).
  unfold Py.format_zero_padded in *.
  destruct (Py.zeros _ ++ Py.str_nat k)%string; [done|]. exact Hd'.
Qed.

(** The number a route name starts with is its index. *)
Lemma int_numeric_prefix_routename (k : nat) (gpxfile_name : string) :
  Py.int (numeric_prefix (routename k gpxfile_name)) = Ok (Z.of_nat k).
Proof. rewrite numeric_prefix_routename. apply int_format_zero_padded. Qed.

Lemma routename_inj (k k' : nat) (gpxfile_name : string) :
  routename k gpxfile_name = routename k' gpxfile_name → k = k'.
Proof.
  intros H. apply (f_equal numeric_prefix) in H.
  rewrite !numeric_prefix_routename in H. by apply format_zero_padded_inj in H.
Qed.

(** ** The label width *)

Lemma ceil_log10_from_spec (fuel : nat) (pow n : Z) :
  0 < pow → n ≤ pow * 10 ^ Z.of_nat fuel →
  let w := Py.ceil_log10_from fuel pow n in
  n ≤ pow * 10 ^ Z.of_nat w ∧ ∀ v : nat, n ≤ pow * 10 ^ Z.of_nat v → (w ≤ v)%nat.
Proof.
  revert pow. induction fuel as [|fuel IH]; intros pow Hpow Hn; simpl.
  - split; [exact Hn|lia].
  - destruct (Z.leb_spec n pow) as [Hle|Hgt].
    + split; [simpl; lia|lia].
    + rewrite Nat2Z.inj_succ, Z.pow_succ_r in Hn by lia.
      destruct (IH (10 * pow) ltac:(lia) ltac:(lia)) as [Hup Hleast].
      split.
      * rewrite Nat2Z.inj_succ, Z.pow_succ_r by lia. lia.
      * intros [|v] Hv; [simpl in Hv; lia|].
        rewrite Nat2Z.inj_succ, Z.pow_succ_r in Hv by lia.
        specialize (Hleast v ltac:(lia)). lia.
Qed.

(** For [M >= 1] the expression has a value, the width of the labels; up
    to [10^12] it is [ceil(log10 M)], the least [w] with [M <= 10^w]. *)
Lemma ceil_log10_ok (beyond : Z → nat) (M : Z) :
  1 ≤ M →
  Py.ceil_log10 beyond M = Ok (label_width beyond M) ∧
  (M ≤ Py.log10_exact_up_to →
   M ≤ 10 ^ Z.of_nat (label_width beyond M) ∧
   ∀ v : nat, M ≤ 10 ^ Z.of_nat v → (label_width beyond M ≤ v)%nat).
Proof.
  intros HM. unfold Py.ceil_log10, label_width.
  destruct (Z.leb_spec M 0) as [|_]; [lia|].
  destruct (Z.leb_spec M Py.log10_exact_up_to) as [Hexact|Hbeyond]; [|split; [done|lia]].
  split; [done|]. intros _.
  assert (M ≤ 1 * 10 ^ Z.of_nat (Z.to_nat M)) as Hfuel.
  { rewrite Z2Nat.id by lia. pose proof (Z.pow_gt_lin_r 10 M ltac:(lia) ltac:(lia)). lia. }
  destruct (ceil_log10_from_spec (Z.to_nat M) 1 M ltac:(lia) Hfuel) as [Hup Hleast].
  split; [lia|]. intros v Hv. apply Hleast. lia.
Qed.

(** ** What the loops compute, for [M >= 1] *)

Lemma label_point_eq (beyond : Z → nat) (M : Z) (w : nat) (s : state) (point : loc) :
  Py.ceil_log10 beyond M = Ok w →
  label_point beyond M s point
  = Ok {| heap := backfill_one w (S (point_idx s)) point (heap s);
          routes_new := routes_new s; route_idx := route_idx s;
          point_idx := S (point_idx s) |}.
Proof.
  intros Hw. destruct s as [h r ri pi]. unfold label_point, backfill_one. simpl.
  destruct (h !! point) as [pt|]; [|done].
  destruct (GPXTrackPoint.name pt); [done|]. by rewrite Hw.
Qed.

Lemma label_points_eq (beyond : Z → nat) (M : Z) (w : nat) (visited : list loc) (s : state) :
  Py.ceil_log10 beyond M = Ok w →
  for_each (label_point beyond M) visited s
  = Ok {| heap := backfill w (point_idx s) visited (heap s);
          routes_new := routes_new s; route_idx := route_idx s;
          point_idx := point_idx s + length visited |}.
Proof.
  intros Hw. revert s. induction visited as [|p visited IH]; intros s; simpl.
  - destruct s; simpl. by rewrite Nat.add_0_r.
  - rewrite (label_point_eq beyond M w) by done. simpl. rewrite IH. simpl.
    do 2 f_equal. lia.
Qed.

Lemma backfill_app (w idx : nat) (l1 l2 : list loc) (h : gmap loc GPXTrackPoint.t) :
  backfill w idx (l1 ++ l2) h = backfill w (idx + length l1) l2 (backfill w idx l1 h).
Proof.
  revert idx h. induction l1 as [|p l1 IH]; intros idx h; simpl.
  - by rewrite Nat.add_0_r.
  - rewrite IH. f_equal. lia.
Qed.

Lemma routes_of_app (f : string) (first : nat) (g1 g2 : list (list loc)) :
  routes_of f first (g1 ++ g2)
  = (routes_of f first g1 ++ routes_of f (first + length g1) g2).
Proof.
  unfold routes_of. rewrite imap_app. f_equal.
  apply imap_ext. intros k sub _. simpl. do 2 f_equal. lia.
Qed.

Lemma make_route_eq (beyond : Z → nat) (M : Z) (w : nat) (f : string) (s : state) (sublist : list loc) :
  Py.ceil_log10 beyond M = Ok w →
  make_route beyond M f s sublist
  = Ok {| heap := backfill w (point_idx s) sublist (heap s);
          routes_new := routes_new s ++ routes_of f (route_idx s) [sublist];
          route_idx := S (route_idx s);
          point_idx := point_idx s + length sublist |}.
Proof.
  intros Hw. unfold make_route. rewrite (label_points_eq beyond M w) by done. simpl.
  unfold routes_of. simpl. by rewrite Nat.add_0_r.
Qed.

Lemma make_routes_eq (beyond : Z → nat) (M : Z) (w : nat) (f : string) (groups : list (list loc)) (s : state) :
  Py.ceil_log10 beyond M = Ok w →
  for_each (make_route beyond M f) groups s
  = Ok {| heap := backfill w (point_idx s) (concat groups) (heap s);
          routes_new := routes_new s ++ routes_of f (route_idx s) groups;
          route_idx := route_idx s + length groups;
          point_idx := point_idx s + length (concat groups) |}.
Proof.
  intros Hw. revert s. induction groups as [|g groups IH]; intros s; simpl.
  - destruct s; simpl. by rewrite app_nil_r, !Nat.add_0_r.
  - rewrite (make_route_eq beyond M w) by done. simpl. rewrite IH. simpl.
    rewrite backfill_app, length_app, <- app_assoc.
    change (g :: groups) with ([g] ++ groups).
    rewrite (routes_of_app f (route_idx s) [g] groups). simpl.
    replace (route_idx s + 1)%nat with (S (route_idx s)) by lia.
    f_equal. f_equal; lia.
Qed.

Lemma process_segment_eq (beyond : Z → nat) (M : Z) (f : string) (s : state) (segment : GPXTrackSegment.t) :
  1 ≤ M →
  process_segment beyond M f s segment
  = Ok {| heap := backfill (label_width beyond M) (point_idx s)
                    (GPXTrackSegment.points segment) (heap s);
          routes_new := routes_new s
                          ++ routes_of f (route_idx s)
                               (windows M (GPXTrackSegment.points segment));
          route_idx := route_idx s
                         + length (windows M (GPXTrackSegment.points segment));
          point_idx := point_idx s + length (GPXTrackSegment.points segment) |}.
Proof.
  intros HM. destruct (ceil_log10_ok beyond M HM) as (Hw & _).
  unfold process_segment. rewrite subsegments_windows by done. simpl.
  rewrite (make_routes_eq beyond M _ f _ s Hw).
  by rewrite concat_windows.
Qed.

Lemma process_segments_eq (beyond : Z → nat) (M : Z) (f : string) (segments : list GPXTrackSegment.t) (s : state) :
  1 ≤ M →
  for_each (process_segment beyond M f) segments s
  = Ok {| heap := backfill (label_width beyond M) (point_idx s)
                    (concat (map GPXTrackSegment.points segments)) (heap s);
          routes_new := routes_new s
                          ++ routes_of f (route_idx s)
                               (concat (map (λ segment, windows M (GPXTrackSegment.points segment))
                                            segments));
          route_idx := route_idx s
                         + length (concat (map (λ segment, windows M (GPXTrackSegment.points segment))
                                               segments));
          point_idx := point_idx s
                         + length (concat (map GPXTrackSegment.points segments)) |}.
Proof.
  intros HM. revert s. induction segments as [|seg segments IH]; intros s; simpl.
  - destruct s; simpl. by rewrite app_nil_r, !Nat.add_0_r.
  - rewrite process_segment_eq by done. simpl. rewrite IH. simpl.
    rewrite backfill_app, routes_of_app, !length_app, <- app_assoc.
    f_equal. f_equal; lia.
Qed.

Lemma process_track_eq (beyond : Z → nat) (M : Z) (f : string) (s : state) (track : GPXTrack.t) :
  1 ≤ M →
  process_track beyond M f s track
  = Ok {| heap := backfill (label_width beyond M) 0 (track_points track) (heap s);
          routes_new := routes_new s ++ routes_of f (route_idx s) (track_groups M track);
          route_idx := route_idx s + length (track_groups M track);
          point_idx := length (track_points track) |}.
Proof.
  intros HM. unfold process_track. by rewrite process_segments_eq.
Qed.

Lemma process_tracks_spec (beyond : Z → nat) (M : Z) (f : string) (tracks : list GPXTrack.t) (s : state) :
  1 ≤ M →
  ∃ s', for_each (process_track beyond M f) tracks s = Ok s' ∧
        heap s' = backfill_tracks (label_width beyond M) tracks (heap s) ∧
        routes_new s' = (routes_new s
                          ++ routes_of f (route_idx s) (concat (map (track_groups M) tracks))) ∧
        route_idx s' = (route_idx s + length (concat (map (track_groups M) tracks)))%nat.
Proof.
  intros HM. revert s. induction tracks as [|track tracks IH]; intros s; simpl.
  - exists s. by rewrite app_nil_r, Nat.add_0_r.
  - rewrite process_track_eq by done. simpl.
    destruct (IH {| heap := backfill (label_width beyond M) 0 (track_points track) (heap s);
                    routes_new := routes_new s ++ routes_of f (route_idx s) (track_groups M track);
                    route_idx := route_idx s + length (track_groups M track);
                    point_idx := length (track_points track) |})
      as (s' & Hrun & Hheap & Hroutes & Hidx).
    exists s'. simpl in *. split; [done|]. split; [done|].
    rewrite Hroutes, Hidx, routes_of_app, length_app, <- app_assoc. split; [done|lia].
Qed.

Lemma process_file_spec sp beyond (args : Args) (s : state) (gpxfile : InputFile) :
  1 ≤ max_route_length args →
  let M := max_route_length args in
  let gpx := load sp args (heap s) gpxfile in
  ∃ s', process_file sp beyond args s gpxfile = Ok s' ∧
        heap s' = backfill_tracks (label_width beyond M) (GPX.tracks gpx) (heap s) ∧
        routes_new s' = (routes_new s ++ routes_of (file_name gpxfile) 0 (gpx_groups M gpx)) ∧
        route_idx s' = length (gpx_groups M gpx).
Proof.
  intros HM M gpx. unfold process_file.
  destruct (process_tracks_spec beyond M (file_name gpxfile) (GPX.tracks gpx) (set_route_idx 0 s) HM)
    as (s' & Hrun & Hheap & Hroutes & Hidx).
  exists s'. by repeat split.
Qed.

(** ** The store under the backfill *)

Lemma backfill_one_ne (w k : nat) (q p : loc) (h : gmap loc GPXTrackPoint.t) :
  q ≠ p → backfill_one w k q h !! p = h !! p.
Proof.
  intros Hne. unfold backfill_one.
  destruct (h !! q) as [qt|]; [|done].
  destruct (GPXTrackPoint.name qt); [done|]. by rewrite lookup_insert_ne.
Qed.

Lemma backfill_one_absent (w k : nat) (q p : loc) (h : gmap loc GPXTrackPoint.t) :
  h !! p = None → backfill_one w k q h !! p = None.
Proof.
  intros Hp. destruct (decide (q = p)) as [->|Hne].
  - unfold backfill_one. by rewrite Hp.
  - by rewrite backfill_one_ne.
Qed.

Lemma backfill_one_named (w k : nat) (q p : loc) (h : gmap loc GPXTrackPoint.t)
    (pt : GPXTrackPoint.t) :
  h !! p = Some pt → is_Some (GPXTrackPoint.name pt) → backfill_one w k q h !! p = Some pt.
Proof.
  intros Hp [n Hn]. destruct (decide (q = p)) as [->|Hne].
  - unfold backfill_one. by rewrite Hp, Hn.
  - by rewrite backfill_one_ne.
Qed.

Lemma backfill_one_unnamed (w k : nat) (p : loc) (h : gmap loc GPXTrackPoint.t)
    (pt : GPXTrackPoint.t) :
  h !! p = Some pt → GPXTrackPoint.name pt = None →
  backfill_one w k p h !! p
  = Some (GPXTrackPoint.set_name (Some (Py.format_zero_padded w k)) pt).
Proof.
  intros Hp Hn. unfold backfill_one. rewrite Hp, Hn. apply lookup_insert_eq.
Qed.

Lemma backfill_absent (w idx : nat) (visited : list loc) (h : gmap loc GPXTrackPoint.t) (p : loc) :
  h !! p = None → backfill w idx visited h !! p = None.
Proof.
  revert idx h. induction visited as [|q visited IH]; intros idx h Hp; simpl; [done|].
  apply IH. by apply backfill_one_absent.
Qed.

Lemma backfill_named (w idx : nat) (visited : list loc) (h : gmap loc GPXTrackPoint.t)
    (p : loc) (pt : GPXTrackPoint.t) :
  h !! p = Some pt → is_Some (GPXTrackPoint.name pt) →
  backfill w idx visited h !! p = Some pt.
Proof.
  revert idx h. induction visited as [|q visited IH]; intros idx h Hp Hn; simpl; [done|].
  apply IH; [|done]. by apply backfill_one_named.
Qed.

Lemma backfill_not_visited (w idx : nat) (visited : list loc) (h : gmap loc GPXTrackPoint.t)
    (p : loc) :
  p ∉ visited → backfill w idx visited h !! p = h !! p.
Proof.
  revert idx h. induction visited as [|q visited IH]; intros idx h Hp; simpl; [done|].
  apply not_elem_of_cons in Hp as [Hne Hp].
  rewrite IH by done. by apply backfill_one_ne.
Qed.

(** The point first met at position [length before] gets the counter's value
    there, [idx + length before + 1]. *)
Lemma backfill_first (w idx : nat) (before after : list loc) (h : gmap loc GPXTrackPoint.t)
    (p : loc) (pt : GPXTrackPoint.t) :
  p ∉ before → h !! p = Some pt → GPXTrackPoint.name pt = None →
  backfill w idx (before ++ p :: after) h !! p
  = Some (GPXTrackPoint.set_name
            (Some (Py.format_zero_padded w (idx + length before + 1))) pt).
Proof.
  intros Hbefore Hp Hn. rewrite backfill_app. simpl.
  apply backfill_named; [|by eexists].
  replace (idx + length before + 1)%nat with (S (idx + length before)) by lia.
  apply backfill_one_unnamed; [|done].
  by rewrite backfill_not_visited.
Qed.

Lemma backfill_visited (w idx : nat) (visited : list loc) (h : gmap loc GPXTrackPoint.t)
    (p : loc) (pt : GPXTrackPoint.t) :
  p ∈ visited → h !! p = Some pt → GPXTrackPoint.name pt = None →
  ∃ k : nat, (idx < k ≤ idx + length visited)%nat ∧
    backfill w idx visited h !! p
    = Some (GPXTrackPoint.set_name (Some (Py.format_zero_padded w k)) pt).
Proof.
  intros Hin Hp Hn.
  apply list_elem_of_split_l in Hin as (before & after & -> & Hbefore).
  exists (idx + length before + 1)%nat. split.
  - rewrite length_app. simpl. lia.
  - by apply backfill_first.
Qed.

Lemma backfill_tracks_absent (w : nat) (tracks : list GPXTrack.t)
    (h : gmap loc GPXTrackPoint.t) (p : loc) :
  h !! p = None → backfill_tracks w tracks h !! p = None.
Proof.
  revert h. induction tracks as [|t tracks IH]; intros h Hp; simpl; [done|].
  apply IH. by apply backfill_absent.
Qed.

Lemma backfill_tracks_named (w : nat) (tracks : list GPXTrack.t)
    (h : gmap loc GPXTrackPoint.t) (p : loc) (pt : GPXTrackPoint.t) :
  h !! p = Some pt → is_Some (GPXTrackPoint.name pt) →
  backfill_tracks w tracks h !! p = Some pt.
Proof.
  revert h. induction tracks as [|t tracks IH]; intros h Hp Hn; simpl; [done|].
  apply IH; [|done]. by apply backfill_named.
Qed.

Lemma backfill_tracks_not_visited (w : nat) (tracks : list GPXTrack.t)
    (h : gmap loc GPXTrackPoint.t) (p : loc) :
  p ∉ concat (map track_points tracks) → backfill_tracks w tracks h !! p = h !! p.
Proof.
  revert h. induction tracks as [|t tracks IH]; intros h Hp; simpl in *; [done|].
  apply not_elem_of_app in Hp as [Ht Hp].
  rewrite IH by done. by apply backfill_not_visited.
Qed.

Lemma backfill_tracks_visited (w : nat) (tracks : list GPXTrack.t)
    (h : gmap loc GPXTrackPoint.t) (p : loc) (pt : GPXTrackPoint.t) :
  p ∈ concat (map track_points tracks) → h !! p = Some pt → GPXTrackPoint.name pt = None →
  ∃ k : nat, (1 ≤ k)%nat ∧
    backfill_tracks w tracks h !! p
    = Some (GPXTrackPoint.set_name (Some (Py.format_zero_padded w k)) pt).
Proof.
  revert h. induction tracks as [|t tracks IH]; intros h Hin Hp Hn; simpl in *.
  - by apply elem_of_nil in Hin.
  - destruct (decide (p ∈ track_points t)) as [Ht|Ht].
    + destruct (backfill_visited w 0 _ h p pt Ht Hp Hn) as (k & Hk & Hlab).
      exists k. split; [lia|].
      apply backfill_tracks_named; [done|by eexists].
    + apply elem_of_app in Hin as [Hin|Hin]; [done|].
      apply IH; [done| |done].
      by rewrite backfill_not_visited.
Qed.

(** ** Routes and groups *)

Lemma routes_of_cons (f : string) (first : nat) (g : list loc) (groups : list (list loc)) :
  routes_of f first (g :: groups)
  = {| GPXRoute.name := routename first f; GPXRoute.points := g |}
      :: routes_of f (S first) groups.
Proof.
  change (g :: groups) with ([g] ++ groups). rewrite routes_of_app.
  unfold routes_of at 1. simpl. rewrite Nat.add_0_r.
  by replace (first + 1)%nat with (S first) by lia.
Qed.

Lemma points_routes_of (f : string) (first : nat) (groups : list (list loc)) :
  map GPXRoute.points (routes_of f first groups) = groups.
Proof.
  revert first. induction groups as [|g groups IH]; intros first; [done|].
  rewrite routes_of_cons. simpl. by rewrite IH.
Qed.

Lemma names_routes_of (f : string) (first : nat) (groups : list (list loc)) :
  map GPXRoute.name (routes_of f first groups)
  = map (λ k, routename k f) (seq first (length groups)).
Proof.
  revert first. induction groups as [|g groups IH]; intros first; [done|].
  rewrite routes_of_cons. simpl. by rewrite IH.
Qed.

Lemma lookup_routes_of (f : string) (first : nat) (groups : list (list loc))
    (k : nat) (r : GPXRoute.t) :
  routes_of f first groups !! k = Some r →
  ∃ g, groups !! k = Some g ∧
       r = {| GPXRoute.name := routename (first + k) f; GPXRoute.points := g |}.
Proof.
  unfold routes_of. rewrite list_lookup_imap.
  destruct (groups !! k) as [g|]; [|done]. simpl. intros [= <-]. by exists g.
Qed.

Lemma NoDup_names_routes_of (f : string) (first : nat) (groups : list (list loc)) :
  NoDup (map GPXRoute.name (routes_of f first groups)).
Proof.
  rewrite names_routes_of.
  assert (Inj (=) (=) (λ k, routename k f)) as Hinj.
  { intros k k' H. by apply routename_inj in H. }
  apply (NoDup_fmap_2 (λ k, routename k f)), NoDup_seq.
Qed.

Lemma length_routes_of (f : string) (first : nat) (groups : list (list loc)) :
  length (routes_of f first groups) = length groups.
Proof. unfold routes_of. apply length_imap. Qed.

Lemma concat_track_groups (M : Z) (track : GPXTrack.t) :
  1 ≤ M → concat (track_groups M track) = track_points track.
Proof.
  intros HM. unfold track_groups, track_points.
  induction (GPXTrack.segments track) as [|seg segs IH]; simpl; [done|].
  by rewrite concat_app, concat_windows, IH.
Qed.

Lemma concat_gpx_groups (M : Z) (gpx : GPX.t) :
  1 ≤ M → concat (gpx_groups M gpx) = gpx_points gpx.
Proof.
  intros HM. unfold gpx_groups, gpx_points.
  induction (GPX.tracks gpx) as [|t ts IH]; simpl; [done|].
  by rewrite concat_app, concat_track_groups, IH.
Qed.

(** ** C1: nothing lost, nothing moved *)

(** C1.  For [max_route_length >= 1] and every input file, the routes the
    chunker appends for that file hold, read one after the other in the order
    they were built, exactly the points of the file's segments (after the
    simplification, when it is on) in their original order: the same
    references, none dropped, none twice, none moved. *)
Theorem C1_routes_cover_segments
    (simplify_polyline : gmap loc GPXTrackPoint.t → list loc → float → list loc)
    (log10_beyond : Z → nat)
    (args : Args) (s : state) (gpxfile : InputFile) :
  1 ≤ max_route_length args →
  ∃ (s' : state) (new : list GPXRoute.t),
    process_file simplify_polyline log10_beyond args s gpxfile = Ok s' ∧
    routes_new s' = routes_new s ++ new ∧
    concat (map GPXRoute.points new)
    = gpx_points (load simplify_polyline args (heap s) gpxfile).
Proof.
  intros HM.
  destruct (process_file_spec simplify_polyline log10_beyond args s gpxfile HM)
    as (s' & Hrun & _ & Hroutes & _).
  eexists s', _. split; [done|]. split; [done|].
  by rewrite points_routes_of, concat_gpx_groups.
Qed.

(** C1 at the two-track sample, [M = 2], the simplification on. *)
Lemma C1_routes_cover_segments_witness :
  (∃ (s' : state) (new : list GPXRoute.t),
     process_file Sample.ends_only Sample.log10_beyond
       (Sample.simplified (Sample.args [Sample.two_tracks] false 2))
       Sample.start Sample.two_tracks = Ok s' ∧
     routes_new s' = routes_new Sample.start ++ new ∧
     concat (map GPXRoute.points new)
     = gpx_points (load Sample.ends_only
                     (Sample.simplified (Sample.args [Sample.two_tracks] false 2))
                     (heap Sample.start) Sample.two_tracks)) ∧
  gpx_points (load Sample.ends_only
                (Sample.simplified (Sample.args [Sample.two_tracks] false 2))
                (heap Sample.start) Sample.two_tracks)
  = [0; 2; 3; 4; 5; 6]%nat.
Proof.
  split; [|reflexivity].
  apply (C1_routes_cover_segments Sample.ends_only Sample.log10_beyond
           (Sample.simplified (Sample.args [Sample.two_tracks] false 2))
           Sample.start Sample.two_tracks).
  simpl. lia.
Defined.

Example routes_of_two_tracks :
  (λ s, (map GPXRoute.name (routes_new s), map GPXRoute.points (routes_new s)))
    <$> match process_file Sample.ends_only Sample.log10_beyond (Sample.args [Sample.two_tracks] false 2)
                Sample.start Sample.two_tracks with
        | Ok s => Some s
        | Raise _ => None
        end
  = Some (["000_alps"; "001_alps"; "002_alps"; "003_alps"; "004_alps"],
          [[0; 1]; [2]; [3]; [4; 5]; [6]]%nat).
Proof. vm_compute. reflexivity. Qed.

(** ** A route length that is not positive *)

Lemma process_segment_nonpositive (beyond : Z → nat) (M : Z) (f : string) (s s' : state)
    (segment : GPXTrackSegment.t) :
  M ≤ 0 → process_segment beyond M f s segment = Ok s' → s' = s.
Proof.
  intros HM. unfold process_segment.
  destruct (Z.eq_dec M 0) as [->|Hne].
  - by rewrite subsegments_zero.
  - rewrite subsegments_negative by lia. simpl. by intros [= <-].
Qed.

Lemma process_segments_nonpositive (beyond : Z → nat) (M : Z) (f : string) (segments : list GPXTrackSegment.t)
    (s s' : state) :
  M ≤ 0 → for_each (process_segment beyond M f) segments s = Ok s' → s' = s.
Proof.
  intros HM. revert s. induction segments as [|seg segments IH]; intros s; simpl.
  - by intros [= <-].
  - destruct (process_segment beyond M f s seg) as [s1|e] eqn:E; simpl; [|done].
    apply process_segment_nonpositive in E as ->; [|done]. apply IH.
Qed.

Lemma process_tracks_nonpositive (beyond : Z → nat) (M : Z) (f : string) (tracks : list GPXTrack.t)
    (s s' : state) :
  M ≤ 0 → for_each (process_track beyond M f) tracks s = Ok s' →
  heap s' = heap s ∧ routes_new s' = routes_new s ∧ route_idx s' = route_idx s.
Proof.
  intros HM. revert s. induction tracks as [|t tracks IH]; intros s; simpl.
  - by intros [= <-].
  - destruct (process_track beyond M f s t) as [s1|e] eqn:E; simpl; [|done].
    unfold process_track in E.
    apply process_segments_nonpositive in E as ->; [|done].
    intros Hrest. by apply IH in Hrest.
Qed.

Lemma process_segment_negative (beyond : Z → nat) (M : Z) (f : string) (s : state)
    (segment : GPXTrackSegment.t) :
  M < 0 → process_segment beyond M f s segment = Ok s.
Proof.
  intros HM. unfold process_segment. by rewrite subsegments_negative.
Qed.

Lemma process_segments_negative (beyond : Z → nat) (M : Z) (f : string) (segments : list GPXTrackSegment.t)
    (s : state) :
  M < 0 → for_each (process_segment beyond M f) segments s = Ok s.
Proof.
  intros HM. induction segments as [|seg segments IH]; simpl; [done|].
  rewrite process_segment_negative by done. exact IH.
Qed.

Lemma process_tracks_negative (beyond : Z → nat) (M : Z) (f : string) (tracks : list GPXTrack.t) (s : state) :
  M < 0 →
  ∃ s', for_each (process_track beyond M f) tracks s = Ok s' ∧
        heap s' = heap s ∧ routes_new s' = routes_new s ∧ route_idx s' = route_idx s.
Proof.
  intros HM. revert s. induction tracks as [|t tracks IH]; intros s; simpl.
  - by exists s.
  - assert (process_track beyond M f s t = Ok (set_point_idx 0 s)) as ->.
    { unfold process_track. by apply process_segments_negative. }
    destruct (IH (set_point_idx 0 s)) as (s' & Hrun & Hh & Hr & Hi). by exists s'.
Qed.

(** ** C3: route names *)

(** C3, as the code has it.  Within one input file the k-th route built
    (from 0) is named by the counter's value [k], zero-padded to three
    digits, and the file's base name: the number in front of the first
    underscore reads back as [k], so the numbers go up by one from route to
    route and the names of the file's routes are pairwise distinct, whatever
    the segments and tracks.  The counter starts again at 0 with each file. *)
Theorem C3_route_names_within_file
    (simplify_polyline : gmap loc GPXTrackPoint.t → list loc → float → list loc)
    (log10_beyond : Z → nat)
    (args : Args) (s s' : state) (gpxfile : InputFile) :
  process_file simplify_polyline log10_beyond args s gpxfile = Ok s' →
  ∃ new : list GPXRoute.t,
    routes_new s' = routes_new s ++ new ∧
    route_idx s' = length new ∧
    (∀ (k : nat) (r : GPXRoute.t), new !! k = Some r →
       GPXRoute.name r = routename k (file_name gpxfile) ∧
       numeric_prefix (GPXRoute.name r) = Py.format_zero_padded 3 k ∧
       Py.int (numeric_prefix (GPXRoute.name r)) = Ok (Z.of_nat k)) ∧
    NoDup (map GPXRoute.name new).
Proof.
  intros Hrun.
  assert (∃ groups, routes_new s' = routes_new s ++ routes_of (file_name gpxfile) 0 groups
                    ∧ route_idx s' = length groups) as (groups & Hroutes & Hidx).
  { destruct (Z.le_gt_cases 1 (max_route_length args)) as [HM|HM].
    - destruct (process_file_spec simplify_polyline log10_beyond args s gpxfile HM)
        as (s1 & Hrun1 & _ & Hr & Hi).
      rewrite Hrun in Hrun1. injection Hrun1 as <-. by eexists.
    - exists []. unfold process_file in Hrun.
      apply process_tracks_nonpositive in Hrun as (_ & Hr & Hi); [|lia].
      simpl in *. by rewrite app_nil_r. }
  exists (routes_of (file_name gpxfile) 0 groups).
  split; [done|]. split; [by rewrite length_routes_of|]. split.
  - intros k r Hr. apply lookup_routes_of in Hr as (g & _ & ->). simpl.
    split; [done|]. split.
    + apply numeric_prefix_routename.
    + apply int_numeric_prefix_routename.
  - apply NoDup_names_routes_of.
Qed.

(** C3 at the two-track sample, [M = 2]: five routes, 000 to 004. *)
Lemma C3_route_names_within_file_witness :
  ∃ s' : state,
    process_file Sample.ends_only Sample.log10_beyond (Sample.args [Sample.two_tracks] false 2)
      Sample.start Sample.two_tracks = Ok s' ∧
    ∃ new : list GPXRoute.t,
      routes_new s' = routes_new Sample.start ++ new ∧
      route_idx s' = length new ∧
      (∀ (k : nat) (r : GPXRoute.t), new !! k = Some r →
         GPXRoute.name r = routename k (file_name Sample.two_tracks) ∧
         numeric_prefix (GPXRoute.name r) = Py.format_zero_padded 3 k ∧
         Py.int (numeric_prefix (GPXRoute.name r)) = Ok (Z.of_nat k)) ∧
      NoDup (map GPXRoute.name new).
Proof.
  eexists. split; [vm_compute; reflexivity|].
  apply (C3_route_names_within_file Sample.ends_only Sample.log10_beyond
           (Sample.args [Sample.two_tracks] false 2)
           Sample.start _ Sample.two_tracks).
  vm_compute. reflexivity.
Defined.

(** C3 as stated fails across files: two files of the same base name give
    the same route names, and the numbers start again at 000. *)
Lemma C3_counterexample :
  ∃ s : state,
    chunk_all Sample.ends_only Sample.log10_beyond
      (Sample.args [Sample.first_day; Sample.second_day] false 2) Sample.store = Ok s ∧
    map GPXRoute.name (routes_new s) = ["000_ride"; "001_ride"; "000_ride"; "001_ride"] ∧
    ¬ NoDup (map GPXRoute.name (routes_new s)).
Proof.
  eexists. split; [vm_compute; reflexivity|]. split; [reflexivity|].
  simpl. intros Hnd. apply NoDup_cons in Hnd as [Hnotin _].
  apply Hnotin. set_solver.
Qed.

(** ** C4, C7, C10: the labels *)

Lemma backfill_at (w : nat) (visited : list loc) (h : gmap loc GPXTrackPoint.t)
    (i : nat) (p : loc) (pt : GPXTrackPoint.t) :
  visited !! i = Some p →
  (∀ j : nat, (j < i)%nat → visited !! j ≠ Some p) →
  h !! p = Some pt → GPXTrackPoint.name pt = None →
  backfill w 0 visited h !! p
  = Some (GPXTrackPoint.set_name (Some (Py.format_zero_padded w (i + 1))) pt).
Proof.
  intros Hi Hfirst Hp Hn.
  rewrite <- (take_drop_middle visited i p Hi).
  rewrite (backfill_first w 0 (take i visited) _ h p pt); [|  |done|done].
  - rewrite length_take. apply lookup_lt_Some in Hi.
    by replace (0 + i `min` length visited + 1)%nat with (i + 1)%nat by lia.
  - intros (j & Hj & Hlt)%elem_of_take. by apply (Hfirst j).
Qed.

(** C4, as the code has it.  Within one track the point counter starts at 0
    and goes up by one at every point, named or not, through all the segments
    and groups of the track: after the track it equals the number of its
    points, and the point first met at position [i] (from 0), when it has no
    name, is labelled from [i + 1].  The labels read back as these numbers,
    so along a track they strictly increase.  The counter starts again with
    each track. *)
Theorem C4_labels_within_track (beyond : Z → nat) (M : Z) (gpxfile_name : string) (s : state)
    (track : GPXTrack.t) :
  1 ≤ M →
  ∃ s' : state,
    process_track beyond M gpxfile_name s track = Ok s' ∧
    point_idx s' = length (track_points track) ∧
    ∀ (i : nat) (p : loc) (pt : GPXTrackPoint.t),
      track_points track !! i = Some p →
      (∀ j : nat, (j < i)%nat → track_points track !! j ≠ Some p) →
      heap s !! p = Some pt → GPXTrackPoint.name pt = None →
      heap s' !! p
      = Some (GPXTrackPoint.set_name
                (Some (Py.format_zero_padded (label_width beyond M) (i + 1))) pt) ∧
      Py.int (Py.format_zero_padded (label_width beyond M) (i + 1)) = Ok (Z.of_nat i + 1).
Proof.
  intros HM. eexists. split; [by apply process_track_eq|]. simpl.
  split; [done|]. intros i p pt Hi Hfirst Hp Hn. split.
  - by apply backfill_at.
  - rewrite int_format_zero_padded. f_equal. lia.
Qed.

(** C4 at the first track of the sample, [M = 2]: points 0, 1, 2, 3 in two
    segments and three groups; point 3, the fourth, is labelled from 4
    although point 2 had a name. *)
Lemma C4_labels_within_track_witness :
  ∃ s' : state,
    process_track Sample.log10_beyond 2 "rides/alps.gpx" Sample.start (Sample.track [[0; 1; 2]; [3]]%nat)
    = Ok s' ∧
    point_idx s' = 4%nat ∧
    GPXTrackPoint.name <$> heap s' !! 3%nat = Some (Some "4") ∧
    Py.int "4" = Ok 4.
Proof.
  destruct (C4_labels_within_track Sample.log10_beyond 2 "rides/alps.gpx" Sample.start
              (Sample.track [[0; 1; 2]; [3]]%nat) ltac:(lia))
    as (s' & Hrun & Hidx & Hlabels).
  exists s'. split; [exact Hrun|]. split; [exact Hidx|].
  destruct (Hlabels 3%nat 3%nat (Sample.point 51 4.5 None)) as [Hlab Hint].
  - reflexivity.
  - intros [|[|[|j]]] Hj; simpl; try discriminate. lia.
  - reflexivity.
  - reflexivity.
  - split; [|exact Hint]. rewrite Hlab. reflexivity.
Defined.

(** C4 as stated fails for a file of two tracks: the counter starts again,
    and a later point of the file gets a smaller label. *)
Lemma C4_counterexample :
  ∃ s' : state,
    process_file Sample.ends_only Sample.log10_beyond (Sample.args [Sample.two_tracks] false 2)
      Sample.start Sample.two_tracks = Ok s' ∧
    gpx_points (parsed Sample.two_tracks) = [0; 1; 2; 3; 4; 5; 6]%nat ∧
    GPXTrackPoint.name <$> heap s' !! 3%nat = Some (Some "4") ∧
    GPXTrackPoint.name <$> heap s' !! 4%nat = Some (Some "1") ∧
    GPXTrackPoint.name <$> heap s' !! 0%nat = Some (Some "1").
Proof.
  eexists. split; [vm_compute; reflexivity|]. by repeat split.
Qed.


Lemma length_string_app (a b : string) :
  String.length (a ++ b)%string = (String.length a + String.length b)%nat.
Proof. induction a as [|c a IH]; simpl; [done|]. by rewrite IH. Qed.


(** What a file does to the store, for [M >= 1]. *)
Lemma process_file_labels sp beyond (args : Args) (s : state) (gpxfile : InputFile) :
  1 ≤ max_route_length args →
  ∃ s' : state,
    process_file sp beyond args s gpxfile = Ok s' ∧
    ∀ p : loc,
      match heap s !! p with
      | None => heap s' !! p = None
      | Some pt =>
          match GPXTrackPoint.name pt with
          | Some _ => heap s' !! p = Some pt
          | None =>
              if decide (p ∈ gpx_points (load sp args (heap s) gpxfile))
              then ∃ k : nat,
                     (1 ≤ k)%nat ∧
                     heap s' !! p
                     = Some (GPXTrackPoint.set_name
                               (Some (Py.format_zero_padded
                                        (label_width beyond (max_route_length args)) k)) pt)
              else heap s' !! p = Some pt
          end
      end.
Proof.
  intros HM.
  destruct (process_file_spec sp beyond args s gpxfile HM) as (s' & Hrun & Hheap & _).
  exists s'. split; [done|].
  intros p. rewrite Hheap.
  destruct (heap s !! p) as [pt|] eqn:Hp; [|by apply backfill_tracks_absent].
  destruct (GPXTrackPoint.name pt) as [n|] eqn:Hn.
  - apply backfill_tracks_named; [done|]. rewrite Hn. by eexists.
  - case_decide as Hin.
    + by apply backfill_tracks_visited.
    + rewrite <- Hp. by apply backfill_tracks_not_visited.
Qed.





(** ** C6, C9: the files written *)

Lemma string_app_inv_head (a b c : string) : (a ++ b = a ++ c)%string → b = c.
Proof. induction a as [|x a IH]; simpl; [done|]. intros [= H]. by apply IH. Qed.

(** The counter in front of a file name reads back. *)
Lemma numeric_prefix_split_filename (i : nat) (output : string) (M : Z) :
  numeric_prefix (split_filename i output M) = Py.str_nat i.
Proof.
  destruct (str_nat_unsigned i) as (d & Hd & _).
  unfold split_filename. apply (numeric_prefix_unsigned _ _ d).
  destruct (Py.str_nat i); [done|]. exact Hd.
Qed.

Lemma str_nat_inj (i j : nat) : Py.str_nat i = Py.str_nat j → i = j.
Proof.
  unfold Py.str_nat. intros H. pose proof (int_str (Z.of_nat i)) as Hi.
  rewrite H, int_str in Hi. injection Hi. lia.
Qed.

Lemma split_filename_inj (i j : nat) (output : string) (M : Z) :
  split_filename i output M = split_filename j output M → i = j.
Proof.
  intros H. apply (f_equal numeric_prefix) in H.
  rewrite !numeric_prefix_split_filename in H. by apply str_nat_inj.
Qed.

Lemma string_app_assoc (a b c : string) : ((a ++ b) ++ c = a ++ b ++ c)%string.
Proof.
  induction a as [|x a IH]; [done|].
  change (String x ((a ++ b) ++ c) = String x (a ++ b ++ c))%string.
  by rewrite IH.
Qed.

(** [join] appends a relative name to the directory, with one separator
    between them when the directory has none at its end. *)
Lemma join_relative (dir name : string) :
  (∀ rest : string, name ≠ String "/" rest) →
  os_path.join dir name
  = ((if String.eqb dir "" || String.eqb (Py.str_from dir (Z.of_nat (String.length dir) - 1)) "/"
      then dir else dir ++ "/") ++ name)%string.
Proof.
  intros Hrel. unfold os_path.join.
  destruct (_ || _).
  - destruct name as [|c name]; [done|].
    destruct (Ascii.eqb_spec c "/") as [->|Hc]; [by destruct (Hrel name)|].
    destruct c as [[] [] [] [] [] [] [] []]; done.
  - rewrite string_app_assoc.
    destruct name as [|c name]; [done|].
    destruct (Ascii.eqb_spec c "/") as [->|Hc]; [by destruct (Hrel name)|].
    destruct c as [[] [] [] [] [] [] [] []]; done.
Qed.

(** A file name of the split mode starts with a digit. *)
Lemma split_filename_relative (i : nat) (output : string) (M : Z) (rest : string) :
  split_filename i output M ≠ String "/" rest.
Proof.
  intros H. apply (f_equal numeric_prefix) in H.
  rewrite numeric_prefix_split_filename in H. simpl in H.
  destruct (str_nat_unsigned i) as (d & Hd & _).
  rewrite H in Hd. simpl in Hd. destruct (NilEmpty.uint_of_string _); done.
Qed.

Lemma join_split_filename_inj (dir output : string) (M : Z) (i j : nat) :
  os_path.join dir (split_filename i output M) = os_path.join dir (split_filename j output M) →
  i = j.
Proof.
  rewrite !join_relative by apply split_filename_relative.
  intros H%string_app_inv_head. by apply split_filename_inj in H.
Qed.

Lemma open_and_write_ok (os : OS) (n : nat) (path : string) (doc : GPX.t)
    (written : list (string * GPX.t)) :
  open_raises os n path = None →
  open_and_write os n path doc written = Ok (written ++ [(path, doc)]).
Proof. intros H. unfold open_and_write. by rewrite H. Qed.

Lemma open_and_write_raises (os : OS) (n : nat) (path : string) (doc : GPX.t)
    (written : list (string * GPX.t)) (e : exn) :
  open_raises os n path = Some e →
  open_and_write os n path doc written = Raise e.
Proof. intros H. unfold open_and_write. by rewrite H. Qed.

(** The writer against the environment: it ends without an exception
    exactly when every file it sets out to write can be opened and written,
    and then these are the files written. *)
Lemma write_split_inv (os : OS) (args : Args) (output : string)
    (routes : list GPXRoute.t) (k : nat) (acc written : list (string * GPX.t)) :
  for_each (λ written '(route_new_idx, route_new),
              open_and_write os route_new_idx
                (os_path.join (output_dir args)
                   (split_filename route_new_idx output (max_route_length args)))
                {| GPX.tracks := GPX.tracks GPX.new;
                   GPX.routes := GPX.routes GPX.new ++ [route_new] |} written)
           (Py.enumerate_from k routes) acc = Ok written →
  written
  = acc ++ imap (λ i route_new,
                   (os_path.join (output_dir args)
                      (split_filename (k + i) output (max_route_length args)),
                    {| GPX.tracks := GPX.tracks GPX.new;
                       GPX.routes := GPX.routes GPX.new ++ [route_new] |})) routes ∧
  ∀ i : nat, (i < length routes)%nat →
    open_raises os (k + i)
      (os_path.join (output_dir args)
         (split_filename (k + i) output (max_route_length args))) = None.
Proof.
  revert k acc. induction routes as [|r routes IH]; intros k acc; simpl.
  - intros [= <-]. split; [by rewrite app_nil_r|]. intros i Hi. lia.
  - destruct (open_raises os k
                (os_path.join (output_dir args)
                   (split_filename k output (max_route_length args))))
      as [e|] eqn:Hopen.
    { rewrite (open_and_write_raises _ _ _ _ _ e Hopen). by intros [=]. }
    rewrite (open_and_write_ok _ _ _ _ _ Hopen). simpl.
    intros Hrest. apply IH in Hrest as [-> Hopens]. split.
    + rewrite <- app_assoc. simpl. rewrite Nat.add_0_r. do 2 f_equal.
      apply imap_ext. intros i x _. simpl. by rewrite Nat.add_succ_r.
    + intros [|i] Hi.
      * by rewrite Nat.add_0_r.
      * rewrite Nat.add_succ_r. apply (Hopens i). lia.
Qed.

Lemma write_split_ok (os : OS) (args : Args) (output : string)
    (routes : list GPXRoute.t) (k : nat) (acc : list (string * GPX.t)) :
  (∀ i : nat, (i < length routes)%nat →
     open_raises os (k + i)
       (os_path.join (output_dir args)
          (split_filename (k + i) output (max_route_length args))) = None) →
  for_each (λ written '(route_new_idx, route_new),
              open_and_write os route_new_idx
                (os_path.join (output_dir args)
                   (split_filename route_new_idx output (max_route_length args)))
                {| GPX.tracks := GPX.tracks GPX.new;
                   GPX.routes := GPX.routes GPX.new ++ [route_new] |} written)
           (Py.enumerate_from k routes) acc
  = Ok (acc ++ imap (λ i route_new,
                       (os_path.join (output_dir args)
                          (split_filename (k + i) output (max_route_length args)),
                        {| GPX.tracks := GPX.tracks GPX.new;
                           GPX.routes := GPX.routes GPX.new ++ [route_new] |})) routes).
Proof.
  revert k acc. induction routes as [|r routes IH]; intros k acc Hopens; simpl.
  - by rewrite app_nil_r.
  - pose proof (Hopens 0%nat ltac:(simpl; lia)) as H0. rewrite Nat.add_0_r in H0.
    rewrite (open_and_write_ok _ _ _ _ _ H0). simpl. rewrite IH.
    + rewrite <- app_assoc. simpl. rewrite Nat.add_0_r. do 3 f_equal.
      apply imap_ext. intros i x _. simpl. by rewrite Nat.add_succ_r.
    + intros i Hi. specialize (Hopens (S i) ltac:(simpl; lia)).
      by rewrite Nat.add_succ_r in Hopens.
Qed.

Lemma write_files_inv (os : OS) (args : Args) (output : string)
    (routes : list GPXRoute.t) (written : list (string * GPX.t)) :
  write_files os args output routes = Ok written →
  written = files_to_write args output routes ∧
  ∀ (i : nat) (path : string) (doc : GPX.t),
    files_to_write args output routes !! i = Some (path, doc) →
    open_raises os i path = None.
Proof.
  unfold write_files, files_to_write. destruct (splitfiles args).
  - intros [-> Hopens]%write_split_inv. split; [done|].
    intros i path doc Hi. rewrite list_lookup_imap in Hi.
    destruct (routes !! i) as [r|] eqn:Hr; [|done].
    simpl in Hi. injection Hi as <- _.
    apply (Hopens i). by apply lookup_lt_Some in Hr.
  - unfold open_and_write.
    destruct (open_raises os 0 _) as [e|] eqn:Hopen; [done|].
    intros [= <-]. split; [done|].
    intros [|i] path doc Hi; [|done]. by injection Hi as <- _.
Qed.

Lemma write_files_ok (os : OS) (args : Args) (output : string) (routes : list GPXRoute.t) :
  (∀ (i : nat) (path : string) (doc : GPX.t),
     files_to_write args output routes !! i = Some (path, doc) →
     open_raises os i path = None) →
  write_files os args output routes = Ok (files_to_write args output routes).
Proof.
  unfold write_files, files_to_write. destruct (splitfiles args); intros Hopens.
  - unfold Py.enumerate. rewrite write_split_ok; [done|].
    intros i Hi. apply lookup_lt_is_Some in Hi as [r Hr].
    apply (Hopens i _ {| GPX.tracks := GPX.tracks GPX.new;
                         GPX.routes := GPX.routes GPX.new ++ [r] |}).
    by rewrite list_lookup_imap, Hr.
  - unfold open_and_write. by rewrite (Hopens 0%nat _ _ eq_refl).
Qed.

Lemma main_inv sp beyond (os : OS) (args : Args) (h : gmap loc GPXTrackPoint.t) (out : Outcome) :
  main sp beyond os args h = Ok out →
  os_path.makedirs os (os_path.dirname (output_dir args)) = Ok (ensured_dir out) ∧
  chunk_all sp beyond args h = Ok (final out) ∧
  written out = files_to_write args (resolve_output args) (routes_new (final out)).
Proof.
  unfold main. destruct (os_path.makedirs _ _) as [dir|e]; simpl; [|done].
  destruct (chunk_all sp beyond args h) as [s|e]; simpl; [|done].
  destruct (write_files os args _ _) as [written|e] eqn:Hwrite; simpl; [|done].
  intros [= <-]. simpl. by apply write_files_inv in Hwrite as [-> _].
Qed.

(** A run ends without an exception and with the files it set out to write
    when line 73 succeeds, the chunker returns, and every open succeeds. *)
Lemma main_ok sp beyond (os : OS) (args : Args) (h : gmap loc GPXTrackPoint.t) (s : state) :
  os_path.dirname (output_dir args) ≠ "" →
  makedirs_raises os (os_path.dirname (output_dir args)) = None →
  chunk_all sp beyond args h = Ok s →
  (∀ (i : nat) (path : string) (doc : GPX.t),
     files_to_write args (resolve_output args) (routes_new s) !! i = Some (path, doc) →
     open_raises os i path = None) →
  main sp beyond os args h
  = Ok {| ensured_dir := os_path.dirname (output_dir args); final := s;
          written := files_to_write args (resolve_output args) (routes_new s) |}.
Proof.
  intros Hdir Hmk Hchunk Hopens. unfold main, os_path.makedirs.
  destruct (String.eqb_spec (os_path.dirname (output_dir args)) "") as [|_]; [done|].
  rewrite Hmk. simpl. rewrite Hchunk. simpl.
  by rewrite write_files_ok.
Qed.

(** C6.  In split mode a run that ends without an exception has written as
    many files as it built routes,
    over all input files; the file at position [i] (from 0) holds the route
    at position [i] and nothing else, and lies in the output directory under
    the name [i], an underscore, the base output name, [_route_split], the
    route length and [.gpx]; the paths are pairwise distinct, so no file
    replaces another. *)
Theorem C6_split_mode_one_file_per_route
    (simplify_polyline : gmap loc GPXTrackPoint.t → list loc → float → list loc)
    (log10_beyond : Z → nat)
    (os : OS) (args : Args) (h : gmap loc GPXTrackPoint.t) (out : Outcome) :
  splitfiles args = true →
  main simplify_polyline log10_beyond os args h = Ok out →
  chunk_all simplify_polyline log10_beyond args h = Ok (final out) ∧
  length (written out) = length (routes_new (final out)) ∧
  (∀ (i : nat) (r : GPXRoute.t), routes_new (final out) !! i = Some r →
     written out !! i
     = Some (os_path.join (output_dir args)
               (Py.str_nat i ++ "_" ++ resolve_output args ++ "_route_split"
                  ++ Py.str (max_route_length args) ++ ".gpx")%string,
             {| GPX.tracks := []; GPX.routes := [r] |})) ∧
  NoDup (map fst (written out)).
Proof.
  intros Hsplit (_ & Hchunk & Hwritten)%main_inv.
  split; [done|]. rewrite Hwritten. unfold files_to_write. rewrite Hsplit.
  split; [apply length_imap|]. split.
  - intros i r Hr. by rewrite list_lookup_imap, Hr.
  - change (map fst ?l) with (fst <$> l). rewrite fmap_imap.
    rewrite (imap_seq_0 _ (λ i, os_path.join (output_dir args)
                                  (split_filename i (resolve_output args)
                                     (max_route_length args)))).
    apply NoDup_fmap_2; [|apply NoDup_seq].
    intros i j H. by apply join_split_filename_inj in H.
Qed.

(** C6 at the two one-track samples, [M = 2]: four routes, four files. *)
Lemma C6_split_mode_one_file_per_route_witness :
  ∃ out : Outcome,
    main Sample.ends_only Sample.log10_beyond Sample.permissive
      (Sample.args [Sample.first_day; Sample.second_day] true 2)
      Sample.store = Ok out ∧
    map fst (written out)
    = ["./0_output_route_split2.gpx"; "./1_output_route_split2.gpx";
       "./2_output_route_split2.gpx"; "./3_output_route_split2.gpx"] ∧
    map (λ w, map GPXRoute.name (GPX.routes (snd w))) (written out)
    = [["000_ride"]; ["001_ride"]; ["000_ride"]; ["001_ride"]] ∧
    chunk_all Sample.ends_only Sample.log10_beyond (Sample.args [Sample.first_day; Sample.second_day] true 2)
      Sample.store = Ok (final out) ∧
    length (written out) = length (routes_new (final out)) ∧
    (∀ (i : nat) (r : GPXRoute.t), routes_new (final out) !! i = Some r →
       written out !! i
       = Some (os_path.join
                 (output_dir (Sample.args [Sample.first_day; Sample.second_day] true 2))
                 (Py.str_nat i ++ "_"
                    ++ resolve_output (Sample.args [Sample.first_day; Sample.second_day] true 2)
                    ++ "_route_split"
                    ++ Py.str (max_route_length
                                 (Sample.args [Sample.first_day; Sample.second_day] true 2))
                    ++ ".gpx")%string,
               {| GPX.tracks := []; GPX.routes := [r] |})) ∧
    NoDup (map fst (written out)).
Proof.
  eexists. split; [vm_compute; reflexivity|].
  split; [reflexivity|]. split; [reflexivity|].
  apply (C6_split_mode_one_file_per_route Sample.ends_only Sample.log10_beyond Sample.permissive
           (Sample.args [Sample.first_day; Sample.second_day] true 2) Sample.store _).
  - reflexivity.
  - vm_compute. reflexivity.
Defined.

Lemma process_file_negative sp beyond (args : Args) (s : state) (gpxfile : InputFile) :
  max_route_length args < 0 →
  ∃ s', process_file sp beyond args s gpxfile = Ok s' ∧
        heap s' = heap s ∧ routes_new s' = routes_new s.
Proof.
  intros HM. unfold process_file.
  destruct (process_tracks_negative beyond (max_route_length args) (file_name gpxfile)
              (GPX.tracks (load sp args (heap s) gpxfile)) (set_route_idx 0 s) HM)
    as (s' & Hrun & Hh & Hr & _).
  by exists s'.
Qed.

Lemma process_files_negative sp beyond (args : Args) (files : list InputFile) (s : state) :
  max_route_length args < 0 →
  ∃ s', for_each (process_file sp beyond args) files s = Ok s' ∧
        heap s' = heap s ∧ routes_new s' = routes_new s.
Proof.
  intros HM. revert s. induction files as [|gpxfile files IH]; intros s; simpl.
  - by exists s.
  - destruct (process_file_negative sp beyond args s gpxfile HM) as (s1 & -> & Hh1 & Hr1).
    simpl.
    destruct (IH s1) as (s' & Hrun & Hh & Hr).
    exists s'. split; [done|]. simpl in *. split; congruence.
Qed.

(** C9, as the code has it.  With a negative [max_route_length] every
    segment, empty or not, gives zero groups; the chunker raises nothing and
    builds no route, and leaves the store alone, so the points of every file
    that has any are lost; and when line 73 succeeds the run goes on to the
    writer, which in combined mode opens its one file, at the first call,
    and on success leaves it holding no route (the run ends with the
    exception of the open when that fails), and in split mode opens no file
    at all and ends without an exception. *)
Theorem C9_negative_length_builds_no_route
    (simplify_polyline : gmap loc GPXTrackPoint.t → list loc → float → list loc)
    (log10_beyond : Z → nat)
    (os : OS) (args : Args) (h : gmap loc GPXTrackPoint.t) :
  max_route_length args < 0 →
  (∀ points : list loc, subsegments points (max_route_length args) = Ok []) ∧
  ∃ s : state,
    chunk_all simplify_polyline log10_beyond args h = Ok s ∧
    routes_new s = [] ∧ heap s = h ∧
    (∀ gpxfile : InputFile,
       gpx_points (load simplify_polyline args h gpxfile) ≠ [] →
       concat (map GPXRoute.points (routes_new s))
       ≠ gpx_points (load simplify_polyline args h gpxfile)) ∧
    (os_path.dirname (output_dir args) ≠ "" →
     makedirs_raises os (os_path.dirname (output_dir args)) = None →
     main simplify_polyline log10_beyond os args h
     = if splitfiles args
       then Ok {| ensured_dir := os_path.dirname (output_dir args);
                  final := s; written := [] |}
       else match open_raises os 0
                    (os_path.join (output_dir args)
                       (resolve_output args ++ "_route_split"
                          ++ Py.str (max_route_length args) ++ ".gpx")%string) with
            | Some e => Raise e
            | None =>
                Ok {| ensured_dir := os_path.dirname (output_dir args);
                      final := s;
                      written :=
                        [(os_path.join (output_dir args)
                            (resolve_output args ++ "_route_split"
                               ++ Py.str (max_route_length args) ++ ".gpx")%string,
                          {| GPX.tracks := []; GPX.routes := [] |})] |}
            end).
Proof.
  intros HM. split; [intros points; by apply subsegments_negative|].
  destruct (process_files_negative simplify_polyline log10_beyond args (input args)
              {| heap := h; routes_new := []; route_idx := 0; point_idx := 0 |} HM)
    as (s & Hrun & Hheap & Hroutes). simpl in *.
  exists s. split; [done|]. split; [done|]. split; [done|]. split.
  - intros gpxfile Hne. by rewrite Hroutes.
  - intros Hdir Hmk. unfold main, os_path.makedirs.
    destruct (String.eqb_spec (os_path.dirname (output_dir args)) "") as [|_]; [done|].
    rewrite Hmk. simpl. fold (chunk_all simplify_polyline log10_beyond args h).
    unfold chunk_all. rewrite Hrun. simpl.
    unfold write_files. rewrite Hroutes. destruct (splitfiles args); [done|].
    unfold open_and_write, combined_filename. simpl.
    by destruct (open_raises os 0 _).
Qed.

(** C9 at the two-track sample, [M = -1], combined mode, on a system where
    every call succeeds. *)
Lemma C9_negative_length_builds_no_route_witness :
  (∀ points : list loc, subsegments points (-1) = Ok []) ∧
  ∃ out : Outcome,
    main Sample.ends_only Sample.log10_beyond Sample.permissive
      (Sample.args [Sample.two_tracks] false (-1)) Sample.store = Ok out ∧
    written out = [("./alps_route_split-1.gpx", {| GPX.tracks := []; GPX.routes := [] |})].
Proof.
  destruct (C9_negative_length_builds_no_route Sample.ends_only Sample.log10_beyond Sample.permissive
              (Sample.args [Sample.two_tracks] false (-1)) Sample.store ltac:(simpl; lia))
    as (Hsub & s & _ & _ & _ & _ & Hmain).
  split; [exact Hsub|].
  eexists. split; [exact (Hmain ltac:(discriminate) eq_refl)|]. reflexivity.
Defined.

(** C9 as stated fails in split mode: with no route there is no file. *)
Lemma C9_counterexample :
  ∃ out : Outcome,
    main Sample.ends_only Sample.log10_beyond Sample.permissive
      (Sample.args [Sample.two_tracks] true (-1)) Sample.store = Ok out ∧
    gpx_points (parsed Sample.two_tracks) = [0; 1; 2; 3; 4; 5; 6]%nat ∧
    written out = [].
Proof. eexists. split; [vm_compute; reflexivity|]. by split. Qed.

(** ** C8: the argument layer *)



(** With 0 the value passes the argument layer too, and the run fails at
    the first segment, after the file has been loaded. *)
Example zero_length_raises_at_first_segment :
  max_route_length_arg (Some "0") = Ok 0 ∧
  main Sample.ends_only Sample.log10_beyond Sample.permissive
    (Sample.args [Sample.two_tracks] false 0) Sample.store
  = Raise (ValueError "range() arg 3 must not be zero").
Proof. split; reflexivity. Qed.

(** ** C5: the output directory *)

(** C5 at two output directories without a slash at the end.  For
    [out/gpx] line 73 makes sure of [out], the directory above, and the file
    is then opened in [out/gpx], which nothing has created: where [out/gpx]
    was there before, the run goes through; where it was not, the run ends
    with the [FileNotFoundError] of the open.  For [out] it is the empty
    path that is passed on, and the run ends there with an error, whether
    [out] exists or not.  With the slash, as in the default, the directory
    made sure of is the one written to. *)
Lemma C5_makedirs_misses_output_dir :
  (∃ out : Outcome,
     main Sample.ends_only Sample.log10_beyond Sample.permissive
       (Sample.in_dir "out/gpx" (Sample.args [Sample.two_tracks] false 2))
       Sample.store = Ok out ∧
     ensured_dir out = "out" ∧
     map fst (written out) = ["out/gpx/alps_route_split2.gpx"] ∧
     map (λ w, os_path.dirname (fst w)) (written out) = ["out/gpx"]) ∧
  main Sample.ends_only Sample.log10_beyond (Sample.only_dirs ["."; "out"])
    (Sample.in_dir "out/gpx" (Sample.args [Sample.two_tracks] false 2))
    Sample.store = Raise (FileNotFoundError "out/gpx/alps_route_split2.gpx") ∧
  main Sample.ends_only Sample.log10_beyond Sample.permissive
    (Sample.in_dir "out" (Sample.args [Sample.two_tracks] false 2))
    Sample.store = Raise (FileNotFoundError "") ∧
  (∃ out : Outcome,
     main Sample.ends_only Sample.log10_beyond (Sample.only_dirs ["."; "out"; "out/gpx"])
       (Sample.in_dir "out/gpx/" (Sample.args [Sample.two_tracks] false 2))
       Sample.store = Ok out ∧
     ensured_dir out = "out/gpx" ∧
     map (λ w, os_path.dirname (fst w)) (written out) = ["out/gpx"]).
Proof.
  split; [|split; [|split]].
  - eexists. split; [vm_compute; reflexivity|]. by repeat split.
  - vm_compute. reflexivity.
  - vm_compute. reflexivity.
  - eexists. split; [vm_compute; reflexivity|]. by repeat split.
Qed.

(** * Further properties of the script *)

(** ** Groups, segments and routes *)

Lemma elem_of_concat_map {A B} (f : A → list B) (l : list A) (x : B) :
  x ∈ concat (map f l) ↔ ∃ y, y ∈ l ∧ x ∈ f y.
Proof.
  induction l as [|a l IH]; simpl.
  - split; [by intros ?%elem_of_nil|]. by intros (y & ?%elem_of_nil & _).
  - rewrite elem_of_app, IH. split.
    + intros [Hx|(y & Hy & Hx)].
      * exists a. split; [apply list_elem_of_here|done].
      * exists y. split; [by apply list_elem_of_further|done].
    + intros (y & [->|Hy]%elem_of_cons & Hx); [by left|]. right. by exists y.
Qed.

Lemma elem_of_concat {A} (ls : list (list A)) (x : A) :
  x ∈ concat ls ↔ ∃ l, l ∈ ls ∧ x ∈ l.
Proof.
  rewrite <- (map_id ls) at 1. apply (elem_of_concat_map id).
Qed.

Lemma elem_of_windows (M : Z) (points g : list loc) :
  1 ≤ M → g ∈ windows M points →
  ∃ k : nat,
    g = window (Z.to_nat M) points k ∧
    (k * Z.to_nat M < length points)%nat ∧
    1 ≤ Z.of_nat (length g) ≤ M.
Proof.
  intros HM (k & Hk)%list_elem_of_lookup.
  pose proof (lookup_lt_Some _ _ _ Hk) as Hlt.
  pose proof (ceil_div_bounds (Z.of_nat (length points)) M ltac:(lia)) as Hb.
  pose proof (length_windows points M) as Hn.
  apply lookup_windows in Hk as ->.
  exists k. split; [done|].
  assert (Z.of_nat (k * Z.to_nat M) = Z.of_nat k * M) as Hkm by nia.
  assert (Z.of_nat k * M < Z.of_nat (length points)) by nia.
  split; [lia|]. rewrite length_window. lia.
Qed.

Lemma elem_of_gpx_groups (M : Z) (gpx : GPX.t) (g : list loc) :
  g ∈ gpx_groups M gpx →
  ∃ segment, segment ∈ gpx_segments gpx ∧ g ∈ windows M (GPXTrackSegment.points segment).
Proof.
  unfold gpx_groups, gpx_segments, track_groups.
  intros (track & Htrack & (segment & Hseg & Hg)%elem_of_concat_map)%elem_of_concat_map.
  exists segment. split; [|done].
  apply elem_of_concat_map. by exists track.
Qed.

Lemma elem_of_routes_of (f : string) (first : nat) (groups : list (list loc)) (r : GPXRoute.t) :
  r ∈ routes_of f first groups →
  ∃ k : nat, groups !! k = Some (GPXRoute.points r) ∧
             GPXRoute.name r = routename (first + k) f.
Proof.
  intros (k & Hk)%list_elem_of_lookup.
  apply lookup_routes_of in Hk as (g & Hg & ->). by exists k.
Qed.

(** X1.  For [M >= 1] no route built from a file mixes two segments: each
    one is a window of a single segment of the loaded document, [M] points
    from a multiple of [M] on, cut at the end of that segment, and it starts
    inside the segment. *)
Theorem routes_are_windows_of_one_segment
    (simplify_polyline : gmap loc GPXTrackPoint.t → list loc → float → list loc)
    (log10_beyond : Z → nat)
    (args : Args) (s : state) (gpxfile : InputFile) :
  1 ≤ max_route_length args →
  ∃ (s' : state) (new : list GPXRoute.t),
    process_file simplify_polyline log10_beyond args s gpxfile = Ok s' ∧
    routes_new s' = routes_new s ++ new ∧
    ∀ r : GPXRoute.t, r ∈ new →
      ∃ (segment : GPXTrackSegment.t) (k : nat),
        segment ∈ gpx_segments (load simplify_polyline args (heap s) gpxfile) ∧
        (k * Z.to_nat (max_route_length args)
           < length (GPXTrackSegment.points segment))%nat ∧
        GPXRoute.points r
        = take (Z.to_nat (max_route_length args))
            (drop (k * Z.to_nat (max_route_length args))
               (GPXTrackSegment.points segment)).
Proof.
  intros HM.
  destruct (process_file_spec simplify_polyline log10_beyond args s gpxfile HM)
    as (s' & Hrun & _ & Hroutes & _).
  eexists s', _. split; [done|]. split; [done|].
  intros r (i & Hi & _)%elem_of_routes_of.
  apply list_elem_of_lookup_2 in Hi.
  apply elem_of_gpx_groups in Hi as (segment & Hseg & Hg).
  apply elem_of_windows in Hg as (k & Hk & Hlt & _); [|done].
  by exists segment, k.
Qed.

Lemma routes_are_windows_of_one_segment_witness :
  ∃ (s' : state) (new : list GPXRoute.t),
    process_file Sample.ends_only Sample.log10_beyond (Sample.args [Sample.two_tracks] false 2)
      Sample.start Sample.two_tracks = Ok s' ∧
    routes_new s' = routes_new Sample.start ++ new ∧
    ∀ r : GPXRoute.t, r ∈ new →
      ∃ (segment : GPXTrackSegment.t) (k : nat),
        segment ∈ gpx_segments (load Sample.ends_only
                                  (Sample.args [Sample.two_tracks] false 2)
                                  (heap Sample.start) Sample.two_tracks) ∧
        (k * Z.to_nat 2 < length (GPXTrackSegment.points segment))%nat ∧
        GPXRoute.points r
        = take (Z.to_nat 2) (drop (k * Z.to_nat 2) (GPXTrackSegment.points segment)).
Proof.
  apply (routes_are_windows_of_one_segment Sample.ends_only Sample.log10_beyond
           (Sample.args [Sample.two_tracks] false 2) Sample.start Sample.two_tracks).
  simpl. lia.
Defined.

(** ** A whole run *)

Lemma process_file_routes sp beyond (args : Args) (s s' : state) (gpxfile : InputFile) :
  process_file sp beyond args s gpxfile = Ok s' →
  ∃ groups : list (list loc),
    routes_new s' = routes_new s ++ routes_of (file_name gpxfile) 0 groups.
Proof.
  intros Hrun.
  destruct (Z.le_gt_cases 1 (max_route_length args)) as [HM|HM].
  - destruct (process_file_spec sp beyond args s gpxfile HM) as (s1 & Hrun1 & _ & Hr & _).
    rewrite Hrun in Hrun1. injection Hrun1 as <-. by eexists.
  - exists []. unfold process_file in Hrun.
    apply process_tracks_nonpositive in Hrun as (_ & Hr & _); [|lia].
    simpl in *. by rewrite app_nil_r.
Qed.

(** The routes of a run, file by file, whatever the route length. *)
Lemma process_files_routes sp beyond (args : Args) (files : list InputFile) (s s' : state) :
  for_each (process_file sp beyond args) files s = Ok s' →
  ∃ news : list (list GPXRoute.t),
    Forall2 (λ gpxfile new, ∃ groups, new = routes_of (file_name gpxfile) 0 groups)
            files news ∧
    routes_new s' = routes_new s ++ concat news.
Proof.
  revert s. induction files as [|gpxfile files IH]; intros s; simpl.
  - intros [= <-]. exists []. split; [constructor|]. by rewrite app_nil_r.
  - destruct (process_file sp beyond args s gpxfile) as [s1|e] eqn:Hfile; simpl; [|done].
    intros Hrest. apply IH in Hrest as (news & Hnews & Hroutes).
    apply process_file_routes in Hfile as (groups & Hs1).
    exists (routes_of (file_name gpxfile) 0 groups :: news). split.
    + constructor; [by exists groups|done].
    + simpl. by rewrite Hroutes, Hs1, <- app_assoc.
Qed.

(** The routes of a run for [M >= 1]: the windows of the documents loaded. *)
Lemma process_files_spec sp beyond (args : Args) (files : list InputFile) (s : state) :
  1 ≤ max_route_length args →
  ∃ (s' : state) (docs : list GPX.t),
    for_each (process_file sp beyond args) files s = Ok s' ∧
    Forall2 (λ gpxfile doc, ∃ h', doc = load sp args h' gpxfile) files docs ∧
    routes_new s'
    = routes_new s
        ++ concat (zip_with (λ gpxfile doc,
                               routes_of (file_name gpxfile) 0
                                 (gpx_groups (max_route_length args) doc))
                            files docs).
Proof.
  intros HM. revert s. induction files as [|gpxfile files IH]; intros s; simpl.
  - exists s, []. split; [done|]. split; [constructor|]. by rewrite app_nil_r.
  - destruct (process_file_spec sp beyond args s gpxfile HM) as (s1 & -> & _ & Hs1 & _).
    simpl. destruct (IH s1) as (s' & docs & Hrun & Hdocs & Hroutes).
    exists s', (load sp args (heap s) gpxfile :: docs).
    split; [done|]. split.
    + constructor; [by eexists|done].
    + simpl. by rewrite Hroutes, Hs1, <- app_assoc.
Qed.

Lemma points_of_run (M : Z) (files : list InputFile) (docs : list GPX.t) :
  1 ≤ M → length files = length docs →
  concat (map GPXRoute.points
            (concat (zip_with (λ gpxfile doc, routes_of (file_name gpxfile) 0 (gpx_groups M doc))
                              files docs)))
  = concat (map gpx_points docs).
Proof.
  intros HM. revert docs. induction files as [|f files IH]; intros [|d docs] Hlen;
    simpl in *; try done.
  rewrite map_app, concat_app, points_routes_of, concat_gpx_groups by done.
  f_equal. apply IH. lia.
Qed.

Lemma elem_of_run (M : Z) (files : list InputFile) (docs : list GPX.t) (r : GPXRoute.t) :
  r ∈ concat (zip_with (λ gpxfile doc, routes_of (file_name gpxfile) 0 (gpx_groups M doc))
                       files docs) →
  ∃ doc, doc ∈ docs ∧ GPXRoute.points r ∈ gpx_groups M doc.
Proof.
  revert docs. induction files as [|f files IH]; intros [|d docs]; simpl;
    try by intros ?%elem_of_nil.
  intros [Hr|Hr]%elem_of_app.
  - exists d. split; [apply list_elem_of_here|].
    apply elem_of_routes_of in Hr as (k & Hk & _).
    by apply list_elem_of_lookup_2 in Hk.
  - apply IH in Hr as (doc & Hdoc & Hr). exists doc.
    split; [by apply list_elem_of_further|done].
Qed.

(** X2.  For [max_route_length >= 1] the chunker gets through every input
    file, and every route of the run, from whichever file, segment or track,
    has at least one point and at most [max_route_length]. *)
Theorem every_route_is_within_the_limit
    (simplify_polyline : gmap loc GPXTrackPoint.t → list loc → float → list loc)
    (log10_beyond : Z → nat)
    (args : Args) (h : gmap loc GPXTrackPoint.t) :
  1 ≤ max_route_length args →
  ∃ s : state,
    chunk_all simplify_polyline log10_beyond args h = Ok s ∧
    ∀ r : GPXRoute.t, r ∈ routes_new s →
      1 ≤ Z.of_nat (length (GPXRoute.points r)) ≤ max_route_length args.
Proof.
  intros HM. unfold chunk_all.
  destruct (process_files_spec simplify_polyline log10_beyond args (input args)
              {| heap := h; routes_new := []; route_idx := 0; point_idx := 0 |} HM)
    as (s & docs & Hrun & _ & Hroutes).
  exists s. split; [done|]. intros r Hr.
  rewrite Hroutes in Hr. simpl in Hr.
  apply elem_of_run in Hr as (doc & _ & Hg).
  apply elem_of_gpx_groups in Hg as (segment & _ & Hg).
  by apply elem_of_windows in Hg as (k & _ & _ & Hlen).
Qed.

Lemma every_route_is_within_the_limit_witness :
  ∃ s : state,
    chunk_all Sample.ends_only Sample.log10_beyond
      (Sample.args [Sample.first_day; Sample.second_day] false 2) Sample.store = Ok s ∧
    ∀ r : GPXRoute.t, r ∈ routes_new s →
      1 ≤ Z.of_nat (length (GPXRoute.points r)) ≤ 2.
Proof.
  apply (every_route_is_within_the_limit Sample.ends_only Sample.log10_beyond
           (Sample.args [Sample.first_day; Sample.second_day] false 2) Sample.store).
  simpl. lia.
Defined.

(** X3.  For [max_route_length >= 1] and the combined mode, when line 73
    succeeds and the one file can be opened and written, the run ends
    without an exception and that file is all it writes: it lies under the
    output directory's path joined with the base output name,
    [_route_split], the route length and [.gpx], and holds all the routes of
    the run in the order they were built; and when the simplification is
    off, the points of these routes, read one route after the other, are the
    points of all the segments of all the input files, in the order of the
    command line. *)
Theorem combined_run_writes_every_point_once
    (simplify_polyline : gmap loc GPXTrackPoint.t → list loc → float → list loc)
    (log10_beyond : Z → nat)
    (os : OS) (args : Args) (h : gmap loc GPXTrackPoint.t) :
  1 ≤ max_route_length args →
  os_path.dirname (output_dir args) ≠ "" →
  makedirs_raises os (os_path.dirname (output_dir args)) = None →
  open_raises os 0
    (os_path.join (output_dir args)
       (resolve_output args ++ "_route_split"
          ++ Py.str (max_route_length args) ++ ".gpx")%string) = None →
  splitfiles args = false →
  ∃ (out : Outcome) (doc : GPX.t),
    main simplify_polyline log10_beyond os args h = Ok out ∧
    written out
    = [(os_path.join (output_dir args)
          (resolve_output args ++ "_route_split"
             ++ Py.str (max_route_length args) ++ ".gpx")%string, doc)] ∧
    GPX.routes doc = routes_new (final out) ∧
    (simplify args = false →
     concat (map GPXRoute.points (GPX.routes doc))
     = concat (map (λ gpxfile, gpx_points (parsed gpxfile)) (input args))).
Proof.
  intros HM Hdir Hmk Hopen Hcombined.
  destruct (process_files_spec simplify_polyline log10_beyond args (input args)
              {| heap := h; routes_new := []; route_idx := 0; point_idx := 0 |} HM)
    as (s & docs & Hrun & Hdocs & Hroutes). simpl in *.
  assert (files_to_write args (resolve_output args) (routes_new s)
          = [(os_path.join (output_dir args)
                (resolve_output args ++ "_route_split"
                   ++ Py.str (max_route_length args) ++ ".gpx")%string,
              {| GPX.tracks := []; GPX.routes := routes_new s |})]) as Hfiles.
  { unfold files_to_write. by rewrite Hcombined. }
  eexists _, _. split.
  { apply (main_ok simplify_polyline log10_beyond os args h s); try done.
    rewrite Hfiles. intros [|i] path doc Hi; [|done]. by injection Hi as <- _. }
  simpl. rewrite Hfiles. split; [done|]. simpl. split; [done|].
  intros Hsimplify. rewrite Hroutes.
  rewrite points_of_run; [|done|by eapply Forall2_length].
  f_equal. clear Hroutes Hrun Hfiles.
  induction Hdocs as [|f d files docs (h' & ->) _ IH]; simpl; [done|].
  rewrite IH. unfold load. by rewrite Hsimplify.
Qed.

Lemma combined_run_writes_every_point_once_witness :
  ∃ (out : Outcome) (doc : GPX.t),
    main Sample.ends_only Sample.log10_beyond (Sample.only_dirs ["."])
      (Sample.args [Sample.first_day; Sample.second_day] false 2) Sample.store = Ok out ∧
    written out
    = [(os_path.join (output_dir (Sample.args [Sample.first_day; Sample.second_day] false 2))
          (resolve_output (Sample.args [Sample.first_day; Sample.second_day] false 2)
             ++ "_route_split"
             ++ Py.str (max_route_length
                          (Sample.args [Sample.first_day; Sample.second_day] false 2))
             ++ ".gpx")%string, doc)] ∧
    GPX.routes doc = routes_new (final out) ∧
    (simplify (Sample.args [Sample.first_day; Sample.second_day] false 2) = false →
     concat (map GPXRoute.points (GPX.routes doc))
     = concat (map (λ gpxfile, gpx_points (parsed gpxfile))
                   (input (Sample.args [Sample.first_day; Sample.second_day] false 2)))).
Proof.
  apply (combined_run_writes_every_point_once Sample.ends_only Sample.log10_beyond (Sample.only_dirs ["."])
           (Sample.args [Sample.first_day; Sample.second_day] false 2) Sample.store).
  - simpl. lia.
  - discriminate.
  - reflexivity.
  - reflexivity.
  - reflexivity.
Defined.

(** ** The names of the points written *)

(** X4.  For [max_route_length >= 1], once a file is processed every point
    of every route built from it has a name: its own if it had one, a label
    otherwise.  The routes hold the very objects of the segments, so the
    labels written during the chunking are what the routes show. *)
Theorem every_route_point_is_named
    (simplify_polyline : gmap loc GPXTrackPoint.t → list loc → float → list loc)
    (log10_beyond : Z → nat)
    (args : Args) (s : state) (gpxfile : InputFile) :
  1 ≤ max_route_length args →
  ∃ (s' : state) (new : list GPXRoute.t),
    process_file simplify_polyline log10_beyond args s gpxfile = Ok s' ∧
    routes_new s' = routes_new s ++ new ∧
    ∀ (r : GPXRoute.t) (p : loc) (pt : GPXTrackPoint.t),
      r ∈ new → p ∈ GPXRoute.points r → heap s' !! p = Some pt →
      is_Some (GPXTrackPoint.name pt).
Proof.
  intros HM.
  destruct (process_file_spec simplify_polyline log10_beyond args s gpxfile HM)
    as (s' & Hrun & _ & Hroutes & _).
  destruct (process_file_labels simplify_polyline log10_beyond args s gpxfile HM)
    as (s1 & Hrun1 & Hframe).
  rewrite Hrun in Hrun1. injection Hrun1 as <-.
  eexists s', _. split; [done|]. split; [done|].
  intros r p pt (k & Hk & _)%elem_of_routes_of Hp Hpt.
  assert (p ∈ gpx_points (load simplify_polyline args (heap s) gpxfile)) as Hin.
  { rewrite <- (concat_gpx_groups (max_route_length args)) by done.
    apply elem_of_concat.
    exists (GPXRoute.points r). split; [|done]. by apply list_elem_of_lookup_2 in Hk. }
  specialize (Hframe p).
  destruct (heap s !! p) as [pt0|]; [|congruence].
  destruct (GPXTrackPoint.name pt0) as [n|] eqn:Hn.
  - rewrite Hframe in Hpt. injection Hpt as <-. rewrite Hn. by eexists.
  - rewrite decide_True in Hframe by done.
    destruct Hframe as (i & _ & Hlab). rewrite Hlab in Hpt. injection Hpt as <-.
    simpl. by eexists.
Qed.

Lemma every_route_point_is_named_witness :
  ∃ (s' : state) (new : list GPXRoute.t),
    process_file Sample.ends_only Sample.log10_beyond (Sample.args [Sample.two_tracks] false 2)
      Sample.start Sample.two_tracks = Ok s' ∧
    routes_new s' = routes_new Sample.start ++ new ∧
    ∀ (r : GPXRoute.t) (p : loc) (pt : GPXTrackPoint.t),
      r ∈ new → p ∈ GPXRoute.points r → heap s' !! p = Some pt →
      is_Some (GPXTrackPoint.name pt).
Proof.
  apply (every_route_point_is_named Sample.ends_only Sample.log10_beyond
           (Sample.args [Sample.two_tracks] false 2) Sample.start Sample.two_tracks).
  simpl. lia.
Defined.

(** ** A route length of zero or one *)

Lemma process_segment_zero (beyond : Z → nat) (f : string) (s : state) (segment : GPXTrackSegment.t) :
  process_segment beyond 0 f s segment = Raise (ValueError "range() arg 3 must not be zero").
Proof. reflexivity. Qed.

Lemma process_tracks_zero (beyond : Z → nat) (f : string) (tracks : list GPXTrack.t) (s : state) :
  (concat (map GPXTrack.segments tracks) = [] →
   ∃ s', for_each (process_track beyond 0 f) tracks s = Ok s' ∧
         heap s' = heap s ∧ routes_new s' = routes_new s ∧ route_idx s' = route_idx s) ∧
  (concat (map GPXTrack.segments tracks) ≠ [] →
   for_each (process_track beyond 0 f) tracks s
   = Raise (ValueError "range() arg 3 must not be zero")).
Proof.
  revert s. induction tracks as [|t tracks IH]; intros s; simpl.
  - split; [|done]. intros _. by exists s.
  - destruct (GPXTrack.segments t) as [|seg segs] eqn:Hsegs; simpl.
    + assert (process_track beyond 0 f s t = Ok (set_point_idx 0 s)) as ->.
      { unfold process_track. by rewrite Hsegs. }
      simpl. destruct (IH (set_point_idx 0 s)) as [Hnone Hsome]. split.
      * intros Hrest. destruct (Hnone Hrest) as (s' & Hrun & Hh & Hr & Hi). by exists s'.
      * intros Hrest. by apply Hsome.
    + assert (process_track beyond 0 f s t
              = Raise (ValueError "range() arg 3 must not be zero")) as ->.
      { unfold process_track. by rewrite Hsegs. }
      by split.
Qed.

(** X5.  With [max_route_length = 0] a file goes through only if its
    document has no segment at all, and then no route is built; as soon as
    a track has a segment, even one without points, the chunker raises the
    [ValueError] of [range] and the run ends. *)
Theorem zero_length_raises_on_any_segment
    (simplify_polyline : gmap loc GPXTrackPoint.t → list loc → float → list loc)
    (log10_beyond : Z → nat)
    (args : Args) (s : state) (gpxfile : InputFile) :
  max_route_length args = 0 →
  (gpx_segments (load simplify_polyline args (heap s) gpxfile) = [] →
   ∃ s' : state,
     process_file simplify_polyline log10_beyond args s gpxfile = Ok s' ∧
     heap s' = heap s ∧ routes_new s' = routes_new s ∧ route_idx s' = 0%nat) ∧
  (gpx_segments (load simplify_polyline args (heap s) gpxfile) ≠ [] →
   process_file simplify_polyline log10_beyond args s gpxfile
   = Raise (ValueError "range() arg 3 must not be zero")).
Proof.
  intros HM. unfold process_file, gpx_segments. rewrite HM.
  destruct (process_tracks_zero log10_beyond (file_name gpxfile)
              (GPX.tracks (load simplify_polyline args (heap s) gpxfile))
              (set_route_idx 0 s)) as [Hnone Hsome].
  split; [|done]. intros Hsegs.
  destruct (Hnone Hsegs) as (s' & Hrun & Hh & Hr & Hi). by exists s'.
Qed.

Lemma zero_length_raises_on_any_segment_witness :
  process_file Sample.ends_only Sample.log10_beyond (Sample.args [Sample.two_tracks] false 0)
    Sample.start
    {| file_name := "empty.gpx"; parsed := Sample.document [[[]]] |}
  = Raise (ValueError "range() arg 3 must not be zero") ∧
  ∃ s' : state,
    process_file Sample.ends_only Sample.log10_beyond (Sample.args [Sample.two_tracks] false 0)
      Sample.start
      {| file_name := "waypoints.gpx"; parsed := Sample.document [[]; []] |} = Ok s' ∧
    heap s' = heap Sample.start ∧ routes_new s' = routes_new Sample.start ∧
    route_idx s' = 0%nat.
Proof.
  split.
  - apply (zero_length_raises_on_any_segment Sample.ends_only Sample.log10_beyond
             (Sample.args [Sample.two_tracks] false 0) Sample.start
             {| file_name := "empty.gpx"; parsed := Sample.document [[[]]] |} eq_refl).
    discriminate.
  - apply (zero_length_raises_on_any_segment Sample.ends_only Sample.log10_beyond
             (Sample.args [Sample.two_tracks] false 0) Sample.start
             {| file_name := "waypoints.gpx"; parsed := Sample.document [[]; []] |} eq_refl).
    reflexivity.
Defined.

Lemma windows_one (points : list loc) :
  windows 1 points = map (λ p, [p]) points.
Proof.
  unfold windows, ceil_div.
  replace (Z.of_nat (length points) + 1 - 1) with (Z.of_nat (length points)) by lia.
  rewrite Z.div_1_r, Nat2Z.id.
  apply list_eq. intros i.
  rewrite !list_lookup_fmap.
  destruct (points !! i) as [p|] eqn:Hp; simpl.
  - rewrite lookup_seq_lt by (by apply lookup_lt_Some in Hp). simpl.
    unfold window. rewrite Nat.mul_1_r.
    by rewrite (drop_S _ _ _ Hp).
  - apply lookup_ge_None in Hp. by rewrite lookup_seq_ge.
Qed.

Lemma track_groups_one (track : GPXTrack.t) :
  track_groups 1 track = map (λ p, [p]) (track_points track).
Proof.
  unfold track_groups, track_points.
  induction (GPXTrack.segments track) as [|seg segs IH]; simpl; [done|].
  by rewrite map_app, windows_one, IH.
Qed.

(** X6.  With [max_route_length = 1] every point of a track becomes a route
    of its own, in order, and the labels are not padded: [ceil(log10 1)] is
    0, so the point first met at position [i] of the track, when it has no
    name, is named by the plain decimal number [i + 1]. *)
Theorem length_one_gives_one_route_per_point (beyond : Z → nat) (gpxfile_name : string) (s : state)
    (track : GPXTrack.t) :
  ∃ (s' : state) (new : list GPXRoute.t),
    process_track beyond 1 gpxfile_name s track = Ok s' ∧
    routes_new s' = routes_new s ++ new ∧
    map GPXRoute.points new = map (λ p, [p]) (track_points track) ∧
    ∀ (i : nat) (p : loc) (pt : GPXTrackPoint.t),
      track_points track !! i = Some p →
      (∀ j : nat, (j < i)%nat → track_points track !! j ≠ Some p) →
      heap s !! p = Some pt → GPXTrackPoint.name pt = None →
      heap s' !! p = Some (GPXTrackPoint.set_name (Some (Py.str_nat (i + 1))) pt).
Proof.
  eexists _, _. split; [apply process_track_eq; lia|]. simpl.
  split; [done|]. split.
  - by rewrite points_routes_of, track_groups_one.
  - intros i p pt Hi Hfirst Hp Hn.
    by rewrite (backfill_at _ _ _ i p pt).
Qed.

(** ** How many routes *)

Lemma length_concat_windows (M : Z) (segments : list GPXTrackSegment.t) :
  1 ≤ M →
  Z.of_nat (length (concat (map (λ segment, windows M (GPXTrackSegment.points segment))
                                segments)))
  = foldr Z.add 0
      (map (λ segment, ceil_div (Z.of_nat (length (GPXTrackSegment.points segment))) M)
           segments).
Proof.
  intros HM. induction segments as [|seg segs IH]; simpl; [done|].
  rewrite length_app, Nat2Z.inj_add, IH, length_windows.
  pose proof (ceil_div_bounds (Z.of_nat (length (GPXTrackSegment.points seg))) M ltac:(lia)).
  f_equal. nia.
Qed.

Lemma gpx_groups_segments (M : Z) (gpx : GPX.t) :
  gpx_groups M gpx
  = concat (map (λ segment, windows M (GPXTrackSegment.points segment)) (gpx_segments gpx)).
Proof.
  unfold gpx_groups, gpx_segments, track_groups.
  induction (GPX.tracks gpx) as [|t ts IH]; simpl; [done|].
  by rewrite map_app, concat_app, IH.
Qed.

(** X7.  For [max_route_length >= 1] the route counter stands, after a
    file, at the number of routes built from it (the count line 138 logs),
    and that number is the sum over the segments of the loaded document of
    [ceil(L / max_route_length)], [L] the number of points of the segment:
    segments are cut one by one, and a short last group is never filled up
    from the next segment. *)
Theorem routes_per_file_is_sum_of_ceilings
    (simplify_polyline : gmap loc GPXTrackPoint.t → list loc → float → list loc)
    (log10_beyond : Z → nat)
    (args : Args) (s : state) (gpxfile : InputFile) :
  1 ≤ max_route_length args →
  ∃ s' : state,
    process_file simplify_polyline log10_beyond args s gpxfile = Ok s' ∧
    length (routes_new s') = (length (routes_new s) + route_idx s')%nat ∧
    Z.of_nat (route_idx s')
    = foldr Z.add 0
        (map (λ segment,
                ceil_div (Z.of_nat (length (GPXTrackSegment.points segment)))
                  (max_route_length args))
             (gpx_segments (load simplify_polyline args (heap s) gpxfile))).
Proof.
  intros HM.
  destruct (process_file_spec simplify_polyline log10_beyond args s gpxfile HM)
    as (s' & Hrun & _ & Hroutes & Hidx).
  exists s'. split; [done|]. split.
  - by rewrite Hroutes, length_app, length_routes_of, Hidx.
  - by rewrite Hidx, gpx_groups_segments, length_concat_windows.
Qed.

Lemma routes_per_file_is_sum_of_ceilings_witness :
  ∃ s' : state,
    process_file Sample.ends_only Sample.log10_beyond (Sample.args [Sample.two_tracks] false 2)
      Sample.start Sample.two_tracks = Ok s' ∧
    length (routes_new s') = (length (routes_new Sample.start) + route_idx s')%nat ∧
    Z.of_nat (route_idx s') = 5.
Proof.
  destruct (routes_per_file_is_sum_of_ceilings Sample.ends_only Sample.log10_beyond
              (Sample.args [Sample.two_tracks] false 2) Sample.start Sample.two_tracks
              ltac:(simpl; lia)) as (s' & Hrun & Hlen & Hsum).
  exists s'. split; [exact Hrun|]. split; [exact Hlen|]. rewrite Hsum. reflexivity.
Defined.

(** ** Route names across files *)

Lemma routename_parts (k k' : nat) (f f' : string) :
  routename k f = routename k' f' → k = k' ∧ file_base f = file_base f'.
Proof.
  intros H. pose proof (f_equal numeric_prefix H) as Hprefix.
  rewrite !numeric_prefix_routename in Hprefix.
  apply format_zero_padded_inj in Hprefix as <-. split; [done|].
  unfold routename in H. apply string_app_inv_head in H.
  by injection H.
Qed.

Lemma names_of_run (files : list InputFile) (news : list (list GPXRoute.t)) (r : GPXRoute.t) :
  Forall2 (λ gpxfile new, ∃ groups, new = routes_of (file_name gpxfile) 0 groups)
          files news →
  r ∈ concat news →
  ∃ (gpxfile : InputFile) (k : nat),
    gpxfile ∈ files ∧ GPXRoute.name r = routename k (file_name gpxfile).
Proof.
  induction 1 as [|f new files news (groups & ->) _ IH]; simpl.
  - by intros ?%elem_of_nil.
  - intros [Hr|Hr]%elem_of_app.
    + apply elem_of_routes_of in Hr as (k & _ & Hname).
      exists f, (0 + k)%nat. split; [apply list_elem_of_here|done].
    + destruct (IH Hr) as (f' & k & Hf' & Hname).
      exists f', k. split; [by apply list_elem_of_further|done].
Qed.

(** X8.  When the input files of a run have pairwise different base names
    (the file name without directory and extension), all the routes of the
    run have different names, although the numbers start at 000 again with
    every file. *)
Theorem route_names_unique_for_distinct_base_names
    (simplify_polyline : gmap loc GPXTrackPoint.t → list loc → float → list loc)
    (log10_beyond : Z → nat)
    (args : Args) (h : gmap loc GPXTrackPoint.t) (s : state) :
  chunk_all simplify_polyline log10_beyond args h = Ok s →
  NoDup (map (λ gpxfile, file_base (file_name gpxfile)) (input args)) →
  NoDup (map GPXRoute.name (routes_new s)).
Proof.
  unfold chunk_all. intros (news & Hnews & ->)%process_files_routes. simpl.
  induction Hnews as [|f new files news (groups & ->) Hnews IH]; simpl.
  - intros _. constructor.
  - intros [Hf Hfiles]%NoDup_cons. rewrite map_app. apply NoDup_app.
    split; [apply NoDup_names_routes_of|]. split; [|by apply IH].
    intros name Hname Hname'.
    apply list_elem_of_fmap in Hname as (r & -> & Hr).
    apply list_elem_of_fmap in Hname' as (r' & Heq & Hr').
    apply elem_of_routes_of in Hr as (k & _ & Hk).
    destruct (names_of_run files news r' Hnews Hr') as (f' & k' & Hf' & Hk').
    rewrite Hk, Hk' in Heq. apply routename_parts in Heq as [_ Hbase].
    apply Hf. rewrite Hbase.
    by apply (list_elem_of_fmap_2 (λ gpxfile, file_base (file_name gpxfile))).
Qed.

Lemma route_names_unique_for_distinct_base_names_witness :
  ∃ s : state,
    chunk_all Sample.ends_only Sample.log10_beyond
      (Sample.args [Sample.two_tracks; Sample.second_day] false 2) Sample.store = Ok s ∧
    map GPXRoute.name (routes_new s)
    = ["000_alps"; "001_alps"; "002_alps"; "003_alps"; "004_alps"; "000_ride"; "001_ride"] ∧
    NoDup (map GPXRoute.name (routes_new s)).
Proof.
  eexists. split; [vm_compute; reflexivity|]. split; [reflexivity|].
  apply (route_names_unique_for_distinct_base_names Sample.ends_only Sample.log10_beyond
           (Sample.args [Sample.two_tracks; Sample.second_day] false 2) Sample.store _).
  - vm_compute. reflexivity.
  - simpl. apply NoDup_cons. split; [|apply NoDup_singleton].
    intros Hin%list_elem_of_singleton. discriminate Hin.
Defined.

(** ** Strings: the last occurrence of a character *)

Lemma rfind_from_shift (c : ascii) (s : string) (i last : Z) :
  Py.rfind_from c s i last
  = if Py.rfind_from c s 0 (-1) <? 0 then last else i + Py.rfind_from c s 0 (-1).
Proof.
  revert i last. induction s as [|a s IH]; intros i last; [done|].
  cbn [Py.rfind_from]. rewrite (IH (i + 1)), (IH (0 + 1)).
  destruct (Z.ltb_spec (Py.rfind_from c s 0 (-1)) 0) as [Hneg|Hpos].
  - destruct (Ascii.eqb a c); simpl; [lia|done].
  - destruct (Z.ltb_spec (0 + 1 + Py.rfind_from c s 0 (-1)) 0); lia.
Qed.

Lemma rfind_cons (a : ascii) (s : string) (c : ascii) :
  Py.rfind (String a s) c
  = if Py.rfind s c <? 0 then (if Ascii.eqb a c then 0 else -1) else 1 + Py.rfind s c.
Proof.
  unfold Py.rfind. cbn [Py.rfind_from]. rewrite rfind_from_shift.
  destruct (Z.ltb_spec (Py.rfind_from c s 0 (-1)) 0); [done|lia].
Qed.

(** [rfind] finds the last occurrence: either the character does not occur
    and the result is [-1], or the string splits at the index returned into
    a part before, the character, and a part without it. *)
Lemma rfind_spec (s : string) (c : ascii) :
  (Py.rfind s c = -1 ∧ c ∉ chars s)
  ∨ ∃ before after : string,
      s = (before ++ String c after)%string ∧
      Py.rfind s c = Z.of_nat (String.length before) ∧
      c ∉ chars after.
Proof.
  induction s as [|a s IH].
  - left. split; [done|]. apply not_elem_of_nil.
  - rewrite rfind_cons. destruct IH as [[Hr Hnot]|(before & after & -> & Hr & Hnot)].
    + rewrite Hr. simpl. destruct (Ascii.eqb_spec a c) as [->|Hne].
      * right. exists "", s. by repeat split.
      * left. split; [done|]. unfold chars in *. simpl.
        apply not_elem_of_cons. by split.
    + right. exists (String a before), after.
      rewrite Hr. destruct (Z.ltb_spec (Z.of_nat (String.length before)) 0); [lia|].
      split; [done|]. split; [simpl; lia|done].
Qed.

Lemma rfind_absent (s : string) (c : ascii) : c ∉ chars s → Py.rfind s c = -1.
Proof.
  intros Hnot. destruct (rfind_spec s c) as [[Hr _]|(before & after & -> & _ & _)]; [done|].
  exfalso. apply Hnot. clear. unfold chars.
  induction before as [|a before IH]; simpl.
  - apply list_elem_of_here.
  - by apply list_elem_of_further.
Qed.

Lemma chars_app (a b : string) : chars (a ++ b) = chars a ++ chars b.
Proof.
  unfold chars. induction a as [|x a IH]; [done|].
  change (x :: list_ascii_of_string (a ++ b)%string
          = x :: list_ascii_of_string a ++ list_ascii_of_string b).
  by rewrite IH.
Qed.

Lemma substring_0_0 (s : string) : substring 0 0 s = "".
Proof. by destruct s. Qed.

Lemma substring_0_length (s : string) : substring 0 (String.length s) s = s.
Proof. induction s as [|a s IH]; simpl; [done|]. by rewrite IH. Qed.

Lemma str_upto_app (before after : string) :
  Py.str_upto (before ++ after) (Z.of_nat (String.length before)) = before.
Proof.
  unfold Py.str_upto. rewrite Nat2Z.id.
  induction before as [|a before IH]; simpl; [apply substring_0_0|].
  change (String a (substring 0 (String.length before) (before ++ after)%string)
          = String a before).
  by rewrite IH.
Qed.

Lemma str_from_app (before after : string) :
  Py.str_from (before ++ after) (Z.of_nat (String.length before)) = after.
Proof.
  unfold Py.str_from. rewrite Nat2Z.id, length_string_app.
  replace (String.length before + String.length after - String.length before)%nat
    with (String.length after) by lia.
  induction before as [|a before IH]; [apply substring_0_length|].
  exact IH.
Qed.

Lemma str_upto_0 (s : string) : Py.str_upto s 0 = "".
Proof. apply substring_0_0. Qed.

Lemma str_from_0 (s : string) : Py.str_from s 0 = s.
Proof.
  unfold Py.str_from. simpl. rewrite Nat.sub_0_r. apply substring_0_length.
Qed.

(** ** The output directory (line 73) *)

Lemma dirname_without_slash (p : string) : "/"%char ∉ chars p → os_path.dirname p = "".
Proof.
  intros Hnot. unfold os_path.dirname. rewrite rfind_absent by done.
  by rewrite str_upto_0.
Qed.

(** X9.  An output directory given without any slash ([out], [gpx.d]) ends
    the run at line 73, before any input is parsed: the directory part of
    such a path is empty, and [os.makedirs] of the empty path raises
    [FileNotFoundError], whether the directory exists or not. *)
Theorem output_dir_without_slash_fails
    (simplify_polyline : gmap loc GPXTrackPoint.t → list loc → float → list loc)
    (log10_beyond : Z → nat)
    (os : OS) (args : Args) (h : gmap loc GPXTrackPoint.t) :
  "/"%char ∉ chars (output_dir args) →
  main simplify_polyline log10_beyond os args h = Raise (FileNotFoundError "").
Proof.
  intros Hnot. unfold main. by rewrite dirname_without_slash.
Qed.

Lemma output_dir_without_slash_fails_witness :
  main Sample.ends_only Sample.log10_beyond Sample.permissive
    (Sample.in_dir "gpx.d" (Sample.args [Sample.two_tracks] false 2))
    Sample.store = Raise (FileNotFoundError "").
Proof.
  apply (output_dir_without_slash_fails Sample.ends_only Sample.log10_beyond Sample.permissive
           (Sample.in_dir "gpx.d" (Sample.args [Sample.two_tracks] false 2)) Sample.store).
  unfold chars. simpl. intros Hin.
  repeat (apply elem_of_cons in Hin as [Hin|Hin]; [discriminate Hin|]).
  by apply elem_of_nil in Hin.
Defined.







(** ** File names: [basename] and [splitext] *)

(** [basename] keeps what follows the last slash. *)
Lemma basename_spec (p : string) :
  ("/"%char ∉ chars (os_path.basename p)) ∧
  ∃ head : string, p = (head ++ os_path.basename p)%string.
Proof.
  unfold os_path.basename.
  destruct (rfind_spec p "/") as [[-> Hnot]|(before & after & -> & -> & Hnot)].
  - simpl. rewrite str_from_0. split; [done|]. by exists "".
  - change (before ++ String "/" after)%string with (before ++ "/" ++ after)%string.
    rewrite <- (string_app_assoc before "/" after).
    replace (Z.of_nat (String.length before) + 1)
      with (Z.of_nat (String.length (before ++ "/")%string))
      by (rewrite length_string_app; simpl; lia).
    rewrite str_from_app. split; [done|]. by exists (before ++ "/")%string.
Qed.

Lemma chars_of_later_part (before before' after after' : string) (c c' : ascii) :
  (before ++ String c after = before' ++ String c' after')%string →
  (String.length before' < String.length before)%nat →
  ∀ x : ascii, x ∈ chars after → x ∈ chars after'.
Proof.
  revert before. induction before' as [|y before' IH]; intros [|z before] Heq Hlen x Hx;
    simpl in Hlen; try lia.
  - injection Heq as _ <-. rewrite chars_app. apply elem_of_app. right.
    by apply list_elem_of_further.
  - injection Heq as _ Heq. apply (IH before Heq); [lia|done].
Qed.

(** [splitext] cuts the path in two parts that give it back; the second is
    empty or a dot followed by characters that are neither dots nor slashes. *)
Lemma splitext_spec (p : string) :
  p = ((os_path.splitext p).1 ++ (os_path.splitext p).2)%string ∧
  ((os_path.splitext p).2 = ""
   ∨ ∃ e : string, (os_path.splitext p).2 = String "." e ∧
                   ("."%char ∉ chars e) ∧ ("/"%char ∉ chars e)).
Proof.
  assert (∀ s : string, (s ++ "")%string = s) as Hnil.
  { induction s as [|x s IH]; [done|].
    change (String x (s ++ "")%string = String x s). by rewrite IH. }
  unfold os_path.splitext.
  destruct (Z.ltb_spec (Py.rfind p "/") (Py.rfind p ".")) as [Hlt|Hge]; simpl;
    [|split; [by rewrite Hnil|by left]].
  destruct (negb _); simpl; [|split; [by rewrite Hnil|by left]].
  destruct (rfind_spec p ".") as [[Hr _]|(before & after & -> & Hr & Hnot)].
  - destruct (rfind_spec p "/") as [[Hs _]|(? & ? & _ & Hs & _)]; lia.
  - rewrite Hr, str_upto_app, str_from_app. split; [done|].
    right. exists after. split; [done|]. split; [done|].
    destruct (rfind_spec (before ++ String "." after) "/")
      as [[_ Hnone]|(before' & after' & Heq & Hs & Hnone)].
    + intros Hin. apply Hnone. rewrite chars_app. apply elem_of_app. right.
      by apply list_elem_of_further.
    + intros Hin. apply Hnone.
      apply (chars_of_later_part before before' after after' "." "/" Heq); [lia|done].
Qed.

(** X11.  Of the output name the script removes an extension and nothing
    else: the name given with [--output] (or, for a single input without
    [--output], the input's file name without its directories) is the base
    name used, followed by what was removed, and that is empty or one dot
    followed by characters that are neither dots nor slashes.  Directories
    in front of a given output name stay in the base name. *)
Theorem output_name_loses_only_its_extension (args : Args) (name : string) :
  match output args, input args with
  | Some o, _ => name = o
  | None, [gpxfile] => name = os_path.basename (file_name gpxfile)
  | None, _ => name = DEFAULT_OUTPUTNAME
  end →
  ∃ ext : string,
    name = (resolve_output args ++ ext)%string ∧
    (ext = "" ∨ ∃ e : string, ext = String "." e ∧
                              ("."%char ∉ chars e) ∧ ("/"%char ∉ chars e)).
Proof.
  intros Hname.
  assert (resolve_output args = (os_path.splitext name).1) as ->.
  { unfold resolve_output. destruct (output args) as [o|]; [by subst|].
    destruct (input args) as [|f [|f' files]]; by subst. }
  exists (os_path.splitext name).2. apply splitext_spec.
Qed.

Lemma output_name_loses_only_its_extension_witness :
  ∃ ext : string,
    "rides/alps.v2.gpx"
    = (resolve_output
         {| input := [Sample.two_tracks]; output := Some "rides/alps.v2.gpx";
            simplify := false; output_dir := "./"; splitfiles := false;
            max_distance := 5; max_route_length := 250 |} ++ ext)%string ∧
    (ext = "" ∨ ∃ e : string, ext = String "." e ∧
                              ("."%char ∉ chars e) ∧ ("/"%char ∉ chars e)).
Proof.
  apply (output_name_loses_only_its_extension
           {| input := [Sample.two_tracks]; output := Some "rides/alps.v2.gpx";
              simplify := false; output_dir := "./"; splitfiles := false;
              max_distance := 5; max_route_length := 250 |} "rides/alps.v2.gpx").
  reflexivity.
Defined.

Example resolve_output_keeps_directories :
  resolve_output
    {| input := [Sample.two_tracks]; output := Some "rides/alps.v2.gpx";
       simplify := false; output_dir := "./"; splitfiles := false;
       max_distance := 5; max_route_length := 250 |} = "rides/alps.v2".
Proof. reflexivity. Qed.

(** ** Where the files go *)

Lemma unsigned_has_no_slash (s : string) (d : uint) :
  NilEmpty.uint_of_string s = Some d → "/"%char ∉ chars s.
Proof.
  revert d. induction s as [|a s IH]; intros d H.
  - apply not_elem_of_nil.
  - simpl in H. destruct (NilEmpty.uint_of_string s) as [d'|]; [|done].
    apply uint_of_char_spec in H.
    apply not_elem_of_cons. split; [|by apply (IH d')].
    destruct H as [[-> _]|[[-> _]|[[-> _]|[[-> _]|[[-> _]|[[-> _]|[[-> _]|[[-> _]|[[-> _]|[-> _]]]]]]]]]];
      discriminate.
Qed.

Lemma str_has_no_slash (z : Z) : "/"%char ∉ chars (Py.str z).
Proof.
  destruct (to_int_cases z) as (d & Hd & _ & Hz).
  unfold Py.str. rewrite Hz.
  pose proof (NilZero.usu d Hd) as Hu.
  assert ("/"%char ∉ chars (NilZero.string_of_uint d)) as Hdigits.
  { destruct (NilZero.string_of_uint d) as [|a s] eqn:E; [apply not_elem_of_nil|].
    by apply (unsigned_has_no_slash _ d). }
  destruct (z <? 0); simpl; [|done].
  apply not_elem_of_cons. split; [discriminate|done].
Qed.

Lemma default_output_has_no_slash (args : Args) :
  output args = None → "/"%char ∉ chars (resolve_output args).
Proof.
  intros Hnone. unfold resolve_output. rewrite Hnone.
  assert (∀ f, "/"%char ∉ chars (os_path.splitext (os_path.basename f)).1) as Hbase.
  { intros f. destruct (basename_spec f) as [Hnot _].
    destruct (splitext_spec (os_path.basename f)) as [Heq _].
    rewrite Heq, chars_app in Hnot. by apply not_elem_of_app in Hnot as [? _]. }
  assert ("/"%char ∉ chars (os_path.splitext DEFAULT_OUTPUTNAME).1) as Hdefault.
  { vm_compute. intros Hin.
    repeat (apply elem_of_cons in Hin as [Hin|Hin]; [discriminate Hin|]).
    by apply elem_of_nil in Hin. }
  destruct (input args) as [|f [|f' files]]; [done|apply Hbase|done].
Qed.

Lemma string_last (s : string) :
  s ≠ "" → ∃ (d : string) (c : ascii), s = (d ++ String c "")%string.
Proof.
  induction s as [|a s IH]; [done|]. intros _.
  destruct s as [|b s].
  - by exists "", a.
  - destruct IH as (d & c & Hd); [done|]. exists (String a d), c.
    change (String a (String b s) = String a (d ++ String c "")%string). by rewrite Hd.
Qed.

Lemma string_last_inj (d d' : string) (c c' : ascii) :
  (d ++ String c "" = d' ++ String c' "")%string → c = c'.
Proof.
  revert d'. induction d as [|a d IH]; intros [|a' d'] H.
  - by injection H.
  - injection H as _ H. by destruct d'.
  - injection H as _ H. by destruct d.
  - injection H as _ H. by apply IH in H.
Qed.

(** The test of [join] for a separator at the end of the directory. *)
Lemma ends_with_slash (dir : string) :
  dir ≠ "" →
  String.eqb (Py.str_from dir (Z.of_nat (String.length dir) - 1)) "/" = true
  ↔ ∃ d : string, dir = (d ++ "/")%string.
Proof.
  intros (d & c & ->)%string_last.
  replace (Z.of_nat (String.length (d ++ String c "")) - 1)
    with (Z.of_nat (String.length d))
    by (rewrite length_string_app; simpl; lia).
  rewrite str_from_app. split.
  - intros Heq%String.eqb_eq. injection Heq as ->. by exists d.
  - intros (d' & Hd'). apply string_last_inj in Hd' as ->. reflexivity.
Qed.

(** A name without a slash is appended to the directory, after one slash
    exactly when the directory does not end with one. *)
Lemma join_name_without_slash (dir name : string) :
  dir ≠ "" → "/"%char ∉ chars name →
  ((∃ d : string, dir = (d ++ "/")%string) → os_path.join dir name = (dir ++ name)%string) ∧
  ((∀ d : string, dir ≠ (d ++ "/")%string) →
   os_path.join dir name = (dir ++ "/" ++ name)%string).
Proof.
  intros Hdir Hnot. rewrite join_relative.
  2:{ intros rest ->. apply Hnot. apply list_elem_of_here. }
  pose proof (ends_with_slash dir Hdir) as Hends.
  destruct (String.eqb_spec dir "") as [|_]; [done|]. simpl.
  destruct (String.eqb (Py.str_from dir (Z.of_nat (String.length dir) - 1)) "/").
  - split; [done|]. intros Hno. destruct (proj1 Hends eq_refl) as (d & Hd).
    by destruct (Hno d).
  - split.
    + intros Hyes. by apply Hends in Hyes.
    + intros _. apply string_app_assoc.
Qed.

(** X12.  Without [--output] every file a run has written lies directly
    in the output directory: its path is the output directory as given,
    followed by a file name that contains no slash, with one slash between
    the two exactly when the output directory does not end with one,
    whatever the directories the input files came from. *)
Theorem default_output_lies_in_output_dir
    (simplify_polyline : gmap loc GPXTrackPoint.t → list loc → float → list loc)
    (log10_beyond : Z → nat)
    (os : OS) (args : Args) (h : gmap loc GPXTrackPoint.t) (out : Outcome) :
  output args = None →
  main simplify_polyline log10_beyond os args h = Ok out →
  ∀ (path : string) (doc : GPX.t), (path, doc) ∈ written out →
    ∃ name : string,
      ("/"%char ∉ chars name) ∧
      ((∃ d : string, output_dir args = (d ++ "/")%string) →
       path = (output_dir args ++ name)%string) ∧
      ((∀ d : string, output_dir args ≠ (d ++ "/")%string) →
       path = (output_dir args ++ "/" ++ name)%string).
Proof.
  intros Hnone (Hmk & _ & Hwritten)%main_inv path doc Hin.
  assert (output_dir args ≠ "") as Hdir.
  { intros Heq. rewrite Heq in Hmk. discriminate Hmk. }
  pose proof (default_output_has_no_slash args Hnone) as Hbase.
  pose proof (str_has_no_slash (max_route_length args)) as HM.
  assert ("/"%char ∉ chars "_route_split") as Hmid.
  { vm_compute. intros H.
    repeat (apply elem_of_cons in H as [H|H]; [discriminate H|]). by apply elem_of_nil in H. }
  assert ("/"%char ∉ chars ".gpx") as Hext.
  { vm_compute. intros H.
    repeat (apply elem_of_cons in H as [H|H]; [discriminate H|]). by apply elem_of_nil in H. }
  assert ("/"%char ∉ chars "_") as Hsep.
  { vm_compute. intros H.
    repeat (apply elem_of_cons in H as [H|H]; [discriminate H|]). by apply elem_of_nil in H. }
  rewrite Hwritten in Hin. unfold files_to_write in Hin.
  destruct (splitfiles args).
  - apply list_elem_of_lookup in Hin as (i & Hi). rewrite list_lookup_imap in Hi.
    destruct (routes_new (final out) !! i) as [r|]; [|done].
    simpl in Hi. injection Hi as <- _.
    exists (split_filename i (resolve_output args) (max_route_length args)).
    assert ("/"%char ∉ chars (split_filename i (resolve_output args) (max_route_length args)))
      as Hname.
    { unfold split_filename. rewrite !chars_app, !not_elem_of_app.
      destruct (str_nat_unsigned i) as (d & Hd & _).
      repeat split; try done.
      destruct (Py.str_nat i) eqn:E; [apply not_elem_of_nil|].
      by apply (unsigned_has_no_slash _ d). }
    split; [done|]. by apply join_name_without_slash.
  - apply list_elem_of_singleton in Hin. injection Hin as -> _.
    exists (combined_filename (resolve_output args) (max_route_length args)).
    assert ("/"%char ∉ chars (combined_filename (resolve_output args) (max_route_length args)))
      as Hname.
    { unfold combined_filename. rewrite !chars_app, !not_elem_of_app. by repeat split. }
    split; [done|]. by apply join_name_without_slash.
Qed.

Lemma default_output_lies_in_output_dir_witness :
  ∃ out : Outcome,
    main Sample.ends_only Sample.log10_beyond (Sample.only_dirs ["."; "out"; "out/gpx"])
      (Sample.in_dir "out/gpx/" (Sample.args [Sample.two_tracks] false 3))
      Sample.store = Ok out ∧
    map fst (written out) = ["out/gpx/alps_route_split3.gpx"] ∧
    ∀ (path : string) (doc : GPX.t), (path, doc) ∈ written out →
      ∃ name : string,
        ("/"%char ∉ chars name) ∧
        ((∃ d : string, "out/gpx/" = (d ++ "/")%string) →
         path = ("out/gpx/" ++ name)%string) ∧
        ((∀ d : string, "out/gpx/" ≠ (d ++ "/")%string) →
         path = ("out/gpx/" ++ "/" ++ name)%string).
Proof.
  eexists. split; [vm_compute; reflexivity|]. split; [reflexivity|].
  apply (default_output_lies_in_output_dir Sample.ends_only Sample.log10_beyond
           (Sample.only_dirs ["."; "out"; "out/gpx"])
           (Sample.in_dir "out/gpx/" (Sample.args [Sample.two_tracks] false 3))
           Sample.store _).
  - reflexivity.
  - vm_compute. reflexivity.
Defined.

(** ** The two output modes *)

Lemma for_each_ext {A S} (body body' : S → A → result S) (l : list A) (s : S) :
  (∀ s a, body s a = body' s a) → for_each body l s = for_each body' l s.
Proof.
  intros Hext. revert s. induction l as [|a l IH]; intros s; simpl; [done|].
  rewrite Hext. destruct (body' s a); simpl; [apply IH|done].
Qed.

(** The chunker reads four of the arguments only. *)
Lemma chunk_all_ext sp beyond (args args' : Args) (h : gmap loc GPXTrackPoint.t) :
  input args = input args' → simplify args = simplify args' →
  max_distance args = max_distance args' →
  max_route_length args = max_route_length args' →
  chunk_all sp beyond args h = chunk_all sp beyond args' h.
Proof.
  intros Hi Hs Hd HM. unfold chunk_all. rewrite Hi.
  apply for_each_ext. intros s f. unfold process_file, load.
  by rewrite Hs, Hd, HM.
Qed.

Lemma routes_of_split_files (args : Args) (base : string) (routes : list GPXRoute.t) :
  splitfiles args = true →
  concat (map (λ w, GPX.routes (snd w)) (files_to_write args base routes)) = routes.
Proof.
  intros Hsplit. unfold files_to_write. rewrite Hsplit.
  change (map ?f ?l) with (f <$> l). rewrite fmap_imap.
  induction routes as [|r routes IH] using rev_ind; [done|].
  rewrite imap_app, concat_app, IH. simpl. by rewrite ?app_nil_r.
Qed.

(** X13.  The mode changes how the routes are spread over files and
    nothing else: two runs on the same inputs with the same simplification
    and route length, one in split mode and one in combined mode, that both
    end without an exception (every directory made and every file opened
    and written) build the same routes and leave the same labels, and the
    routes of the split files, taken file after file, are the routes of the
    combined file in the same order. *)
Theorem both_modes_write_the_same_routes
    (simplify_polyline : gmap loc GPXTrackPoint.t → list loc → float → list loc)
    (log10_beyond : Z → nat)
    (os os' : OS) (split combined : Args) (h : gmap loc GPXTrackPoint.t)
    (out out' : Outcome) :
  input split = input combined → simplify split = simplify combined →
  max_distance split = max_distance combined →
  max_route_length split = max_route_length combined →
  splitfiles split = true → splitfiles combined = false →
  main simplify_polyline log10_beyond os split h = Ok out →
  main simplify_polyline log10_beyond os' combined h = Ok out' →
  final out = final out' ∧
  concat (map (λ w, GPX.routes (snd w)) (written out))
  = concat (map (λ w, GPX.routes (snd w)) (written out')).
Proof.
  intros Hi Hs Hd HM Hsplit Hcombined
    (_ & Hchunk & Hwritten)%main_inv (_ & Hchunk' & Hwritten')%main_inv.
  rewrite (chunk_all_ext _ _ split combined) in Hchunk by done.
  rewrite Hchunk in Hchunk'. injection Hchunk' as Hfinal.
  split; [done|].
  rewrite Hwritten, Hwritten', routes_of_split_files by done.
  unfold files_to_write. rewrite Hcombined. simpl. by rewrite ?app_nil_r, Hfinal.
Qed.

Lemma both_modes_write_the_same_routes_witness :
  ∃ out out' : Outcome,
    main Sample.ends_only Sample.log10_beyond (Sample.only_dirs ["."])
      (Sample.args [Sample.first_day; Sample.second_day] true 2) Sample.store = Ok out ∧
    main Sample.ends_only Sample.log10_beyond (Sample.only_dirs ["."])
      (Sample.args [Sample.first_day; Sample.second_day] false 2) Sample.store = Ok out' ∧
    length (written out) = 4%nat ∧ length (written out') = 1%nat ∧
    final out = final out' ∧
    concat (map (λ w, GPX.routes (snd w)) (written out))
    = concat (map (λ w, GPX.routes (snd w)) (written out')).
Proof.
  eexists _, _. split; [vm_compute; reflexivity|]. split; [vm_compute; reflexivity|].
  split; [reflexivity|]. split; [reflexivity|].
  apply (both_modes_write_the_same_routes Sample.ends_only Sample.log10_beyond
           (Sample.only_dirs ["."]) (Sample.only_dirs ["."])
           (Sample.args [Sample.first_day; Sample.second_day] true 2)
           (Sample.args [Sample.first_day; Sample.second_day] false 2) Sample.store _ _);
    first [reflexivity | vm_compute; reflexivity].
Defined.

(** ** When the operating system refuses *)

Lemma write_split_raises (os : OS) (args : Args) (output : string)
    (routes : list GPXRoute.t) (k : nat) (acc : list (string * GPX.t))
    (i : nat) (e : exn) :
  (i < length routes)%nat →
  (∀ j : nat, (j < i)%nat →
     open_raises os (k + j)
       (os_path.join (output_dir args)
          (split_filename (k + j) output (max_route_length args))) = None) →
  open_raises os (k + i)
    (os_path.join (output_dir args)
       (split_filename (k + i) output (max_route_length args))) = Some e →
  for_each (λ written '(route_new_idx, route_new),
              open_and_write os route_new_idx
                (os_path.join (output_dir args)
                   (split_filename route_new_idx output (max_route_length args)))
                {| GPX.tracks := GPX.tracks GPX.new;
                   GPX.routes := GPX.routes GPX.new ++ [route_new] |} written)
           (Py.enumerate_from k routes) acc
  = Raise e.
Proof.
  revert k acc i. induction routes as [|r routes IH]; intros k acc i Hi Hbefore Hat.
  - simpl in Hi. lia.
  - simpl. destruct i as [|i].
    + rewrite Nat.add_0_r in Hat. by rewrite (open_and_write_raises _ _ _ _ _ e Hat).
    + pose proof (Hbefore 0%nat ltac:(lia)) as H0. rewrite Nat.add_0_r in H0.
      rewrite (open_and_write_ok _ _ _ _ _ H0). simpl.
      apply (IH (S k) _ i).
      * simpl in Hi. lia.
      * intros j Hj. specialize (Hbefore (S j) ltac:(lia)).
        by rewrite Nat.add_succ_r in Hbefore.
      * by rewrite Nat.add_succ_r in Hat.
Qed.

(** X14.  Nothing in the script catches an exception of [open] or of the
    write: once line 73 has succeeded and the chunker has returned, the run
    ends with the exception of the first file that cannot be opened and
    written.  In split mode that is the file of the first route, in the
    order of [routes_new], whose open raises; in combined mode it is the
    one file. *)
Theorem run_ends_at_the_first_open_that_fails
    (simplify_polyline : gmap loc GPXTrackPoint.t → list loc → float → list loc)
    (log10_beyond : Z → nat)
    (os : OS) (args : Args) (h : gmap loc GPXTrackPoint.t) (s : state) (e : exn) :
  os_path.dirname (output_dir args) ≠ "" →
  makedirs_raises os (os_path.dirname (output_dir args)) = None →
  chunk_all simplify_polyline log10_beyond args h = Ok s →
  (if splitfiles args
   then ∃ i : nat,
          (i < length (routes_new s))%nat ∧
          (∀ j : nat, (j < i)%nat →
             open_raises os j
               (os_path.join (output_dir args)
                  (Py.str_nat j ++ "_" ++ resolve_output args ++ "_route_split"
                     ++ Py.str (max_route_length args) ++ ".gpx")%string) = None) ∧
          open_raises os i
            (os_path.join (output_dir args)
               (Py.str_nat i ++ "_" ++ resolve_output args ++ "_route_split"
                  ++ Py.str (max_route_length args) ++ ".gpx")%string) = Some e
   else open_raises os 0
          (os_path.join (output_dir args)
             (resolve_output args ++ "_route_split"
                ++ Py.str (max_route_length args) ++ ".gpx")%string) = Some e) →
  main simplify_polyline log10_beyond os args h = Raise e.
Proof.
  intros Hdir Hmk Hchunk Hfails. unfold main, os_path.makedirs.
  destruct (String.eqb_spec (os_path.dirname (output_dir args)) "") as [|_]; [done|].
  rewrite Hmk. simpl. rewrite Hchunk. simpl.
  unfold write_files. destruct (splitfiles args).
  - destruct Hfails as (i & Hi & Hbefore & Hat). unfold Py.enumerate.
    by rewrite (write_split_raises os args (resolve_output args) (routes_new s)
                  0 [] i e Hi Hbefore Hat).
  - unfold open_and_write, combined_filename. by rewrite Hfails.
Qed.

(** X14 at [-o rides/alps.v2.gpx --splitfiles]: the name of every file has
    a slash in it, the first is to go to [./0_rides/], and where there is no
    such directory the run ends at the first [open]. *)
Lemma run_ends_at_the_first_open_that_fails_witness :
  main Sample.ends_only Sample.log10_beyond (Sample.only_dirs ["."; "./rides"])
    {| input := [Sample.two_tracks]; output := Some "rides/alps.v2.gpx";
       simplify := false; output_dir := "./"; splitfiles := true;
       max_distance := 5; max_route_length := 2 |} Sample.store
  = Raise (FileNotFoundError "./0_rides/alps.v2_route_split2.gpx").
Proof.
  eapply (run_ends_at_the_first_open_that_fails Sample.ends_only Sample.log10_beyond
            (Sample.only_dirs ["."; "./rides"])
            {| input := [Sample.two_tracks]; output := Some "rides/alps.v2.gpx";
               simplify := false; output_dir := "./"; splitfiles := true;
               max_distance := 5; max_route_length := 2 |} Sample.store).
  - discriminate.
  - reflexivity.
  - vm_compute. reflexivity.
  - exists 0%nat. split; [vm_compute; lia|]. split; [intros j Hj; lia|].
    vm_compute. reflexivity.
Defined.

(** In combined mode the same output name goes to [./rides/], and the run
    goes through where that directory exists. *)
Example combined_run_with_a_directory_in_the_output_name :
  match main Sample.ends_only Sample.log10_beyond (Sample.only_dirs ["."; "./rides"])
          {| input := [Sample.two_tracks]; output := Some "rides/alps.v2.gpx";
             simplify := false; output_dir := "./"; splitfiles := false;
             max_distance := 5; max_route_length := 250 |} Sample.store with
  | Ok out => Some (map fst (written out))
  | Raise _ => None
  end
  = Some ["./rides/alps.v2_route_split250.gpx"].
Proof. vm_compute. reflexivity. Qed.

(** X15.  And a split run does end without an exception when nothing is
    refused: for [max_route_length >= 1] the chunker returns, and when line
    73 succeeds and the file of every route can be opened and written, the
    run has written these files, one for each route and in the order of the
    routes, and nothing else. *)
Theorem split_run_goes_through_when_nothing_is_refused
    (simplify_polyline : gmap loc GPXTrackPoint.t → list loc → float → list loc)
    (log10_beyond : Z → nat)
    (os : OS) (args : Args) (h : gmap loc GPXTrackPoint.t) :
  1 ≤ max_route_length args →
  splitfiles args = true →
  os_path.dirname (output_dir args) ≠ "" →
  makedirs_raises os (os_path.dirname (output_dir args)) = None →
  ∃ s : state,
    chunk_all simplify_polyline log10_beyond args h = Ok s ∧
    ((∀ i : nat, (i < length (routes_new s))%nat →
        open_raises os i
          (os_path.join (output_dir args)
             (Py.str_nat i ++ "_" ++ resolve_output args ++ "_route_split"
                ++ Py.str (max_route_length args) ++ ".gpx")%string) = None) →
     main simplify_polyline log10_beyond os args h
     = Ok {| ensured_dir := os_path.dirname (output_dir args);
             final := s;
             written :=
               imap (λ i r,
                       (os_path.join (output_dir args)
                          (Py.str_nat i ++ "_" ++ resolve_output args ++ "_route_split"
                             ++ Py.str (max_route_length args) ++ ".gpx")%string,
                        {| GPX.tracks := []; GPX.routes := [r] |}))
                    (routes_new s) |}).
Proof.
  intros HM Hsplit Hdir Hmk.
  destruct (process_files_spec simplify_polyline log10_beyond args (input args)
              {| heap := h; routes_new := []; route_idx := 0; point_idx := 0 |} HM)
    as (s & docs & Hrun & _ & _).
  exists s. split; [done|]. intros Hopens.
  rewrite (main_ok simplify_polyline log10_beyond os args h s Hdir Hmk Hrun).
  - unfold files_to_write. by rewrite Hsplit.
  - unfold files_to_write. rewrite Hsplit. intros i path doc Hi.
    rewrite list_lookup_imap in Hi.
    destruct (routes_new s !! i) as [r|] eqn:Hr; [|done].
    simpl in Hi. injection Hi as <- _.
    apply (Hopens i). by apply lookup_lt_Some in Hr.
Qed.

(** X15 at the two one-track samples, [M = 2], where the current directory
    is the only one there is. *)
Lemma split_run_goes_through_when_nothing_is_refused_witness :
  ∃ out : Outcome,
    main Sample.ends_only Sample.log10_beyond (Sample.only_dirs ["."])
      (Sample.args [Sample.first_day; Sample.second_day] true 2) Sample.store = Ok out ∧
    map fst (written out)
    = ["./0_output_route_split2.gpx"; "./1_output_route_split2.gpx";
       "./2_output_route_split2.gpx"; "./3_output_route_split2.gpx"].
Proof.
  destruct (split_run_goes_through_when_nothing_is_refused
              Sample.ends_only Sample.log10_beyond (Sample.only_dirs ["."])
              (Sample.args [Sample.first_day; Sample.second_day] true 2) Sample.store)
    as (s & Hchunk & Hmain).
  - simpl. lia.
  - reflexivity.
  - discriminate.
  - reflexivity.
  - vm_compute in Hchunk. injection Hchunk as <-.
    eexists. split.
    + apply Hmain. intros i Hi.
      destruct i as [|[|[|[|i]]]]; [reflexivity..|]. simpl in Hi. lia.
    + reflexivity.
Defined.
